(** * Desktop Shortcut Creator: entry parser, Exec resolver and shortcut writer

    A shallow embedding of [shortcut_creator.py].  The Tk widget tree, the
    dialogs and the log pane are left out; what the callbacks read from the
    widgets is passed as a record, what they ask the user is passed as an
    answer, and the file system and the external tools are a [World] value.

    A Python [str] is a Rocq [string]: a sequence of code points below 256,
    with the character predicates of Python on that range. *)

From Stdlib Require Import Ascii NArith ZArith Bool Lia.
From Stdlib Require String.
From stdpp Require Import gmap strings sorting.

(* ===================================================================== *)
(** ** Python's [str] methods *)
(* ===================================================================== *)

Module Py.

Definition code (c : ascii) : N := N_of_ascii c.

Definition between (lo hi : N) (c : ascii) : bool :=
  ((lo <=? code c) && (code c <=? hi))%N.

(** [c.isspace()] *)
Definition isspace (c : ascii) : bool :=
  between 9 13 c || between 28 32 c || (code c =? 133)%N || (code c =? 160)%N.

Definition is_ascii_alnum (c : ascii) : bool :=
  between 48 57 c || between 65 90 c || between 97 122 c.

(** [c.isalnum()] *)
Definition isalnum (c : ascii) : bool :=
  is_ascii_alnum c
  || (code c =? 170)%N || between 178 179 c || (code c =? 181)%N
  || between 185 186 c || between 188 190 c
  || between 192 214 c || between 216 246 c || between 248 255 c.

(** [c.lower()] *)
Definition lower_char (c : ascii) : ascii :=
  if between 65 90 c || between 192 214 c || between 216 222 c
  then ascii_of_N (code c + 32) else c.

Fixpoint lower (s : string) : string :=
  match s with
  | EmptyString => EmptyString
  | String c r => String (lower_char c) (lower r)
  end.

Fixpoint map_chars (f : ascii -> ascii) (s : string) : string :=
  match s with
  | EmptyString => EmptyString
  | String c r => String (f c) (map_chars f r)
  end.

Fixpoint mem_char (c : ascii) (s : string) : bool :=
  match s with
  | EmptyString => false
  | String d r => Ascii.eqb c d || mem_char c r
  end.

(** Leading and trailing characters that satisfy [p] are dropped. *)
Fixpoint lstrip_by (p : ascii -> bool) (s : string) : string :=
  match s with
  | EmptyString => EmptyString
  | String c r => if p c then lstrip_by p r else s
  end.

Fixpoint rstrip_by (p : ascii -> bool) (s : string) : string :=
  match s with
  | EmptyString => EmptyString
  | String c r =>
      match rstrip_by p r with
      | EmptyString => if p c then EmptyString else String c EmptyString
      | r' => String c r'
      end
  end.

Definition strip_by (p : ascii -> bool) (s : string) : string :=
  lstrip_by p (rstrip_by p s).

(** [s.strip()] *)
Definition strip : string -> string := strip_by isspace.

(** [s.strip(chars)] *)
Definition strip_chars (chars : string) : string -> string :=
  strip_by (fun c => mem_char c chars).

(** [s.startswith(p)] *)
Definition startswith (s p : string) : bool := String.prefix p s.

(** [s.endswith(p)] *)
Definition endswith (s p : string) : bool :=
  String.prefix (String.rev p) (String.rev s).

(** [sub in s] *)
Fixpoint contains (sub s : string) : bool :=
  String.prefix sub s
  || match s with
     | EmptyString => false
     | String _ r => contains sub r
     end.

(** [s.split(sep)] for a separator of one character: never empty. *)
Fixpoint split (sep : ascii) (s : string) : list string :=
  match s with
  | EmptyString => [EmptyString]
  | String c r =>
      if Ascii.eqb c sep then EmptyString :: split sep r
      else match split sep r with
           | h :: t => String c h :: t
           | [] => [String c EmptyString]
           end
  end.

(** [s.split(sep, 1)] when [sep in s]: the text before and after the first
    separator; [None] when the separator does not occur. *)
Fixpoint split_first (sep : ascii) (s : string) : option (string * string) :=
  match s with
  | EmptyString => None
  | String c r =>
      if Ascii.eqb c sep then Some (EmptyString, r)
      else match split_first sep r with
           | Some (k, v) => Some (String c k, v)
           | None => None
           end
  end.

(** [s.split()]: the maximal runs of characters that are not whitespace. *)
Fixpoint split_ws_go (cur : option string) (s : string) : list string :=
  match s with
  | EmptyString => option_list (String.rev <$> cur)
  | String c r =>
      if isspace c
      then option_list (String.rev <$> cur) ++ split_ws_go None r
      else split_ws_go (Some (String c (default EmptyString cur))) r
  end.

Definition split_ws : string -> list string := split_ws_go None.

(** [s[1:-1]] *)
Fixpoint drop_last (s : string) : string :=
  match s with
  | EmptyString => EmptyString
  | String c EmptyString => EmptyString
  | String c r => String c (drop_last r)
  end.

Definition slice_1_m1 (s : string) : string :=
  match s with
  | EmptyString => EmptyString
  | String _ r => drop_last r
  end.

(** [l[-1]] and [l[0]] on a list that [split] returned *)
Definition last_item (l : list string) : string := List.last l EmptyString.
Definition first_item (l : list string) : string := List.hd EmptyString l.

(** [s.replace('__', '_')]: occurrences are found from the left and do not
    overlap; what a replacement leaves behind is not looked at again. *)
Fixpoint replace_dunder (s : string) : string :=
  match s with
  | EmptyString => EmptyString
  | String c r =>
      match r with
      | String d r' =>
          if Ascii.eqb c "_"%char && Ascii.eqb d "_"%char
          then String "_"%char (replace_dunder r')
          else String c (replace_dunder r)
      | EmptyString => String c EmptyString
      end
  end.

(** Every character of [s] satisfies [p]. *)
Fixpoint all_chars (p : ascii -> bool) (s : string) : bool :=
  match s with
  | EmptyString => true
  | String c r => p c && all_chars p r
  end.

(** [str(b).lower()] for a Python [bool] *)
Definition str_bool_lower (b : bool) : string :=
  lower (if b then "True" else "False").

(** What a text file opened with [newline=None] gives when it is read: a
    carriage return, alone or before a line feed, comes out as one line
    feed. *)
Fixpoint universal_newlines (s : string) : string :=
  match s with
  | EmptyString => EmptyString
  | String c r =>
      if Ascii.eqb c "013"%char then
        match r with
        | String c' r' =>
            if Ascii.eqb c' "010"%char
            then String "010"%char (universal_newlines r')
            else String "010"%char (universal_newlines r)
        | EmptyString => String "010"%char EmptyString
        end
      else String c (universal_newlines r)
  end.

End Py.

(* ===================================================================== *)
(** ** The fragment of Python's [re] that the parser uses *)
(* ===================================================================== *)

(** A backtracking matcher in continuation-passing style.  Alternatives are
    tried in the order of Python's engine: a greedy repetition takes one more
    iteration before it tries to stop, a lazy one tries to stop first; the
    leftmost start position wins.  A capture group keeps the text of its last
    iteration on the path that succeeded. *)
Module Re.

Inductive regex : Type :=
| Lit (s : string)                      (* literal text *)
| Class (p : ascii -> bool)             (* one character of a class *)
| Cat (r1 r2 : regex)                   (* r1 r2 *)
| Alt (r1 r2 : regex)                   (* r1|r2 *)
| Star (greedy : bool) (r : regex)      (* r* and r*? *)
| Group (n : nat) (r : regex)           (* (r), numbered *)
| Look (r : regex)                      (* (?=r) *)
| EndZ.                                 (* \Z *)

(** [r+] and [r+?] *)
Definition Plus (greedy : bool) (r : regex) : regex := Cat r (Star greedy r).

Definition captures := list (nat * string).

Definition group (cs : captures) (n : nat) : option string :=
  snd <$> List.find (fun c => Nat.eqb (fst c) n) cs.

(** The text consumed between the input [s] and its suffix [rest]. *)
Definition consumed (s rest : string) : string :=
  String.substring 0 (String.length s - String.length rest) s.

Fixpoint drop_prefix (p s : string) : option string :=
  match p, s with
  | EmptyString, _ => Some s
  | String a p', String b s' => if Ascii.eqb a b then drop_prefix p' s' else None
  | String _ _, EmptyString => None
  end.

Definition or_else {A : Type} (x y : option A) : option A :=
  match x with Some _ => x | None => y end.

Fixpoint run {A : Type} (r : regex) (s : string) (cs : captures)
    (k : string -> captures -> option A) {struct r} : option A :=
  match r with
  | Lit p =>
      match drop_prefix p s with Some rest => k rest cs | None => None end
  | Class p =>
      match s with
      | String c rest => if p c then k rest cs else None
      | EmptyString => None
      end
  | Cat r1 r2 => run r1 s cs (fun s1 cs1 => run r2 s1 cs1 k)
  | Alt r1 r2 => or_else (run r1 s cs k) (run r2 s cs k)
  | Star greedy r1 =>
      (fix loop (fuel : nat) (s : string) (cs : captures) {struct fuel}
         : option A :=
         let stop := k s cs in
         let more :=
           match fuel with
           | O => None
           | S fuel' =>
               run r1 s cs (fun s' cs' =>
                 if (String.length s' <? String.length s)%nat
                 then loop fuel' s' cs' else None)
           end in
         if greedy then or_else more stop else or_else stop more)
        (String.length s) s cs
  | Group n r1 =>
      run r1 s cs (fun s' cs' => k s' ((n, consumed s s') :: cs'))
  | Look r1 =>
      match run r1 s cs (fun _ _ => Some tt) with
      | Some _ => k s cs
      | None => None
      end
  | EndZ =>
      match s with EmptyString => k s cs | String _ _ => None end
  end.

(** [re.match(r, s)]: the captures of a match that starts at the head. *)
Definition match_here (r : regex) (s : string) : option captures :=
  run r s [] (fun _ cs => Some cs).

(** [re.search(r, s)]: the first start position that matches. *)
Fixpoint search (r : regex) (s : string) : option captures :=
  match match_here r s with
  | Some cs => Some cs
  | None =>
      match s with
      | EmptyString => None
      | String _ rest => search r rest
      end
  end.

End Re.

(* ===================================================================== *)
(** ** Exceptions *)
(* ===================================================================== *)

Inductive exn : Type :=
| ValueError
| FileNotFoundError
| OSError
| UnicodeDecodeError.

(** What a call gives back: a value, or an exception that travels up to the
    nearest [except] clause that takes it. *)
Inductive outcome (A : Type) : Type :=
| Return (a : A)
| Raise (e : exn).
Arguments Return {A} a.
Arguments Raise {A} e.

Global Instance outcome_ret : MRet outcome := fun A a => Return a.

Global Instance outcome_bind : MBind outcome := fun A B f x =>
  match x with
  | Return a => f a
  | Raise e => Raise e
  end.

(** [try: c  except E: h] for the exceptions that [handles] selects. *)
Definition try_except {A : Type} (c : outcome A) (handles : exn -> bool)
    (h : exn -> outcome A) : outcome A :=
  match c with
  | Return a => Return a
  | Raise e => if handles e then h e else Raise e
  end.

Definition is_ValueError (e : exn) : bool :=
  match e with ValueError => true | _ => false end.

(** [except Exception]: every exception of the model is an [Exception]. *)
Definition is_Exception (e : exn) : bool := true.

(* ===================================================================== *)
(** ** [shlex.split] *)
(* ===================================================================== *)

(** [shlex.split(s)] runs the POSIX-mode lexer with [whitespace_split] set and
    no comment characters, and collects its tokens.  The function below is
    the lexer's [read_token] loop, one character at a time, restarted after
    each token. *)
Module Shlex.

Definition dquote : ascii := "034"%char.
Definition squote : ascii := "039"%char.
Definition backslash : ascii := "092"%char.

(** [shlex.whitespace]: space, tab, carriage return, line feed *)
Definition is_whitespace (c : ascii) : bool :=
  Ascii.eqb c " "%char || Ascii.eqb c "009"%char
  || Ascii.eqb c "013"%char || Ascii.eqb c "010"%char.

(** [shlex.quotes] *)
Definition is_quote (c : ascii) : bool := Ascii.eqb c squote || Ascii.eqb c dquote.

(** [shlex.escape] *)
Definition is_escape (c : ascii) : bool := Ascii.eqb c backslash.

(** [shlex.escapedquotes] *)
Definition is_escapedquote (c : ascii) : bool := Ascii.eqb c dquote.

(** [self.state]: [' '], ['a'], a quote character, or the escape character *)
Inductive state : Type :=
| Blank
| Word
| Quote (q : ascii)
| Escape.

Definition push (tok : string) (c : ascii) : string := tok +:+ String c EmptyString.

Definition nonempty (s : string) : bool :=
  match s with EmptyString => false | String _ _ => true end.

Fixpoint lex (s : string) (st escapedstate : state) (token : string)
    (quoted : bool) {struct s} : outcome (list string) :=
  match s with
  | EmptyString =>
      match st with
      | Blank | Word =>
          Return (if nonempty token || quoted then [token] else [])
      | Quote _ => Raise ValueError        (* No closing quotation *)
      | Escape => Raise ValueError         (* No escaped character *)
      end
  | String c r =>
      match st with
      | Blank =>
          if is_whitespace c then
            if nonempty token || quoted
            then rest ← lex r Blank Blank EmptyString false; Return (token :: rest)
            else lex r Blank escapedstate token quoted
          else if is_escape c then lex r Escape Word token quoted
          else if is_quote c then lex r (Quote c) escapedstate token quoted
          else lex r Word escapedstate (String c EmptyString) quoted
      | Quote q =>
          if Ascii.eqb c q then lex r Word escapedstate token true
          else if is_escape c && is_escapedquote q
          then lex r Escape (Quote q) token true
          else lex r (Quote q) escapedstate (push token c) true
      | Escape =>
          let token' :=
            match escapedstate with
            | Quote q =>
                if negb (Ascii.eqb c backslash) && negb (Ascii.eqb c q)
                then push token backslash else token
            | _ => token
            end in
          lex r escapedstate escapedstate (push token' c) quoted
      | Word =>
          if is_whitespace c then
            if nonempty token || quoted
            then rest ← lex r Blank Blank EmptyString false; Return (token :: rest)
            else lex r Blank escapedstate token quoted
          else if is_quote c then lex r (Quote c) escapedstate token quoted
          else if is_escape c then lex r Escape Word token quoted
          else lex r Word escapedstate (push token c) quoted
      end
  end.

Definition split (s : string) : outcome (list string) :=
  lex s Blank Blank EmptyString false.

End Shlex.

(* ===================================================================== *)
(** ** The process environment, the file system and the external tools *)
(* ===================================================================== *)

(** [os.environ] and [Path.home()] *)
Record Environ : Type := {
  LANG : option string;
  XDG_DATA_DIRS : option string;
  XDG_DATA_HOME : option string;
  home : string
}.

(** [os.environ.get(key, default)] *)
Definition environ_get (v : option string) (dflt : string) : string := default dflt v.

(** What [subprocess.run(..., capture_output=True, text=True)] returns *)
Record CompletedProcess : Type := {
  returncode : Z;
  stdout : string;
  stderr : string
}.

Record file : Type := {
  content : string;
  mode : Z                (* the permission bits of [st_mode] *)
}.

Inductive io_op : Type := OpRead | OpWrite | OpChmod | OpMkdir.

(** Paths are compared as they are written, and a path names one file or
    one directory: there are no symbolic links.  The access check, the
    [which] tool, [glob] and the I/O errors of the operating system are
    oracles. *)
Record World : Type := {
  files : gmap string file;
  dirs : gset string;
  umask : Z;
  access_X_OK : string -> bool;                     (* os.access(p, os.X_OK) *)
  run_which : string -> outcome CompletedProcess;   (* subprocess.run(['which', c]) *)
  glob : string -> list string;                     (* glob.glob(pattern) *)
  io_error : io_op -> string -> option exn          (* permissions, encoding, ... *)
}.

Definition is_file (w : World) (p : string) : bool := bool_decide (is_Some (files w !! p)).
Definition is_dir (w : World) (p : string) : bool := bool_decide (p ∈ dirs w).

(** [os.path.exists(p)] *)
Definition path_exists (w : World) (p : string) : bool := is_file w p || is_dir w p.

(** [os.path.isabs(p)] *)
Definition isabs (p : string) : bool := Py.startswith p "/".

(** [os.path.join(a, b)] for a relative [b] *)
Definition path_join (a b : string) : string :=
  if Shlex.nonempty a && negb (Py.endswith a "/") then a +:+ "/" +:+ b else a +:+ b.

(** [open(p, 'r', encoding='utf-8').read()]: the text of the file, with the
    line ends translated as a file opened for reading in text mode does. *)
Definition read_text (w : World) (p : string) : outcome string :=
  match files w !! p with
  | None => Raise (if is_dir w p then OSError else FileNotFoundError)
  | Some f =>
      match io_error w OpRead p with
      | Some e => Raise e
      | None => Return (Py.universal_newlines (content f))
      end
  end.

(* ===================================================================== *)
(** ** The Exec resolver *)
(* ===================================================================== *)

(** The fallback of line 286: the whitespace-separated parts of the string,
    each with its surrounding single and double quotes stripped. *)
Definition fallback_split (exec_string : string) : list string :=
  List.map (Py.strip_chars (String Shlex.dquote (String Shlex.squote EmptyString)))
    (List.filter (fun part => Shlex.nonempty (Py.strip part)) (Py.split_ws exec_string)).

(** Lines 283-286: the token list, by [shlex.split] or by the fallback. *)
Definition exec_parts (exec_string : string) : outcome (list string) :=
  try_except (Shlex.split exec_string) is_ValueError
    (fun _ => Return (fallback_split exec_string)).

(** Line 292: [exec_candidate.split('%')[0].strip()] *)
Definition strip_placeholders (part : string) : string :=
  Py.strip (Py.first_item (Py.split "%"%char part)).

(** Lines 297-321, for a candidate that is not empty. *)
Definition lookup_candidate (w : World) (exec_string exec_candidate : string)
    : outcome string :=
  if isabs exec_candidate
     && (path_exists w exec_candidate && access_X_OK w exec_candidate)
  then Return exec_candidate
  else
    try_except
      (result ← run_which w exec_candidate;
       if (returncode result =? 0)%Z then
         let resolved_path := Py.strip (stdout result) in
         if access_X_OK w resolved_path then Return resolved_path
         else Return exec_string
       else Return exec_string)
      is_Exception
      (fun _ => Return exec_string).

Definition find_executable_path (w : World) (exec_string : string) : outcome string :=
  parts ← exec_parts exec_string;
  match parts with
  | [] => Return exec_string
  | part0 :: _ =>
      let exec_candidate := strip_placeholders part0 in
      if negb (Shlex.nonempty exec_candidate) then Return exec_string
      else lookup_candidate w exec_string exec_candidate
  end.

(* ===================================================================== *)
(** ** The entry parser *)
(* ===================================================================== *)

(** The dictionary that [parse_desktop_file] returns *)
Record AppInfo : Type := {
  name : string;
  exec : string;
  resolved_path : string;
  icon : string;
  comment : string;
  categories : string;
  terminal : bool;
  desktop_file : string
}.

(** [desktop_dict.get(key, default)] *)
Definition dict_get (d : gmap string string) (key dflt : string) : string :=
  default dflt (d !! key).

(** One turn of the loop of lines 207-213 on [(current_section, desktop_dict)]. *)
Definition read_line (st : option string * gmap string string) (line : string)
    : option string * gmap string string :=
  let '(current_section, desktop_dict) := st in
  let line := Py.strip line in
  if Py.startswith line "[" && Py.endswith line "]"
  then (Some (Py.slice_1_m1 line), desktop_dict)
  else
    match current_section with
    | Some section =>
        if String.eqb section "Desktop Entry" then
          match Py.split_first "="%char line with
          | Some (key, value) => (current_section, <[key := value]> desktop_dict)
          | None => st
          end
        else st
    | None => st
    end.

Definition read_entries (content : string) : gmap string string :=
  snd (List.fold_left read_line (Py.split "010"%char content) (None, ∅)).

(** Line 216 *)
Definition lang_code (env : Environ) : string :=
  Py.first_item (Py.split "."%char (environ_get (LANG env) "en_US.UTF-8")).

(** [f'Key[{lang_code}]'] *)
Definition localized (key lang : string) : string := key +:+ "[" +:+ lang +:+ "]".

(** [desktop_dict.get(f'Key[{lang_code}]', desktop_dict.get('Key', ''))] *)
Definition get_localized (d : gmap string string) (key lang : string) : string :=
  dict_get d (localized key lang) (dict_get d key "").

(** Lines 217-219 *)
Definition entry_name (d : gmap string string) (lang : string) : string :=
  let name := get_localized d "Name" lang in
  if negb (Shlex.nonempty name) then dict_get d "GenericName" "" else name.

(** The pattern of line 243:
    [flatpak run\s+(--[a-zA-Z0-9=\-\.]+?\s+)*?([a-zA-Z0-9\.\-_]+)(?=\s|\Z)] *)
Definition flag_char (c : ascii) : bool := Py.is_ascii_alnum c || Py.mem_char c "=-.".
Definition id_char (c : ascii) : bool := Py.is_ascii_alnum c || Py.mem_char c ".-_".

Definition flatpak_pattern : Re.regex :=
  let ws := Re.Class Py.isspace in
  Re.Cat (Re.Lit "flatpak run")
 (Re.Cat (Re.Plus true ws)
 (Re.Cat (Re.Star false
            (Re.Group 1 (Re.Cat (Re.Lit "--")
                        (Re.Cat (Re.Plus false (Re.Class flag_char))
                                (Re.Plus true ws)))))
 (Re.Cat (Re.Group 2 (Re.Plus true (Re.Class id_char)))
         (Re.Look (Re.Alt ws Re.EndZ))))).

(** [match.group(2)] of the search of line 243, when there is a match. *)
Definition flatpak_id (exec_string : string) : option string :=
  cs ← Re.search flatpak_pattern exec_string; Re.group cs 2.

Definition flatpak_system_dir : string := "/var/lib/flatpak/exports/share/applications/".
Definition flatpak_user_dir (env : Environ) : string :=
  home env +:+ "/.local/share/flatpak/exports/share/applications/".

(** Lines 230-232 *)
Definition is_flatpak (env : Environ) (d : gmap string string) (file_path : string) : bool :=
  String.eqb (Py.lower (dict_get d "X-Flatpak" "")) "true"
  || Py.startswith file_path flatpak_system_dir
  || Py.startswith file_path (flatpak_user_dir env).

(** Line 234 *)
Definition is_snap (env : Environ) (d : gmap string string) (file_path exec_string : string) : bool :=
  Py.contains "snap/gui" exec_string && negb (is_flatpak env d file_path).

(** Line 248: [exec_string_original.split('/')[-1].split(' ')[0]] *)
Definition exec_basename (exec_string : string) : string :=
  Py.first_item (Py.split " "%char (Py.last_item (Py.split "/"%char exec_string))).

(** Lines 205-275, on the text of the file. *)
Definition parse_content (env : Environ) (w : World) (file_path content : string)
    : outcome AppInfo :=
  let desktop_dict := read_entries content in
  let lang := lang_code env in
  let name := entry_name desktop_dict lang in
  let exec_string_original := dict_get desktop_dict "Exec" "" in
  let icon := get_localized desktop_dict "Icon" lang in
  let comment := get_localized desktop_dict "Comment" lang in
  let categories := dict_get desktop_dict "Categories" "" in
  let terminal := String.eqb (Py.lower (dict_get desktop_dict "Terminal" "")) "true" in
  '(resolved_exec_command, icon) ←
    (if is_flatpak env desktop_dict file_path then
       match flatpak_id exec_string_original with
       | Some id =>
           Return ("flatpak run " +:+ id,
                   if negb (Shlex.nonempty icon)
                      || String.eqb icon (exec_basename exec_string_original)
                   then id else icon)
       | None => Return (exec_string_original, icon)
       end
     else if is_snap env desktop_dict file_path exec_string_original then
       Return (exec_string_original, icon)
     else
       resolved ← find_executable_path w exec_string_original;
       Return (resolved, icon));
  Return {| name := name;
            exec := exec_string_original;
            resolved_path := resolved_exec_command;
            icon := icon;
            comment := comment;
            categories := categories;
            terminal := terminal;
            desktop_file := file_path |}.

(** [parse_desktop_file]: every exception of the body gives [None]. *)
Definition parse_desktop_file (env : Environ) (w : World) (file_path : string)
    : option AppInfo :=
  match content ← read_text w file_path; parse_content env w file_path content with
  | Return app_info => Some app_info
  | Raise _ => None
  end.

(* ===================================================================== *)
(** ** The catalog loader *)
(* ===================================================================== *)

(** Lines 164-173 *)
Definition builtin_dirs (env : Environ) : list string :=
  [ "/usr/share/applications/";
    "/usr/local/share/applications/";
    home env +:+ "/.local/share/applications/";
    "/var/lib/snapd/desktop/applications/";
    flatpak_system_dir;
    flatpak_user_dir env ].

(** Lines 176-179 *)
Definition add_xdg_data_dirs (env : Environ) (desktop_dirs : list string) : list string :=
  List.fold_left
    (fun desktop_dirs d =>
       if Shlex.nonempty d && negb (bool_decide (d ∈ desktop_dirs))
       then desktop_dirs ++ [path_join d "applications"]
       else desktop_dirs)
    (Py.split ":"%char (environ_get (XDG_DATA_DIRS env) ""))
    desktop_dirs.

(** Lines 182-184 *)
Definition add_xdg_data_home (env : Environ) (desktop_dirs : list string) : list string :=
  let xdg_data_home := environ_get (XDG_DATA_HOME env) (home env +:+ "/.local/share") in
  if Shlex.nonempty xdg_data_home
     && negb (bool_decide ((home env +:+ "/.local/share/applications/") ∈ desktop_dirs))
  then desktop_dirs ++ [path_join xdg_data_home "applications"]
  else desktop_dirs.

Definition candidate_dirs (env : Environ) : list string :=
  add_xdg_data_home env (add_xdg_data_dirs env (builtin_dirs env)).

(** Line 187: [[d for d in list(set(desktop_dirs)) if os.path.exists(d)]].
    A Python set is iterated in an order of its own; [elements] stands for
    it, and nothing below depends on which order it is. *)
Definition scan_dirs (env : Environ) (w : World) : list string :=
  List.filter (path_exists w) (elements (list_to_set (candidate_dirs env) : gset string)).

(** Line 193 *)
Definition keep (app_info : option AppInfo) : option AppInfo :=
  match app_info with
  | Some a => if Shlex.nonempty (name a) && Shlex.nonempty (exec a) then Some a else None
  | None => None
  end.

(** Lines 190-194, for one directory *)
Definition scan_directory (env : Environ) (w : World) (directory : string) : list AppInfo :=
  omap (fun file_path => keep (parse_desktop_file env w file_path))
       (glob w (directory +:+ "*.desktop")).

(** [x['name'].lower()] *)
Definition sort_key (a : AppInfo) : string := Py.lower (name a).

(** [list.sort(key=...)] is stable; so is insertion from the right. *)
Fixpoint insert_by_key (a : AppInfo) (l : list AppInfo) : list AppInfo :=
  match l with
  | [] => [a]
  | b :: l' =>
      if String.leb (sort_key a) (sort_key b) then a :: l
      else b :: insert_by_key a l'
  end.

Fixpoint sort_by_key (l : list AppInfo) : list AppInfo :=
  match l with
  | [] => []
  | a :: l' => insert_by_key a (sort_by_key l')
  end.

(** The part of [self] that the loader writes *)
Record App : Type := { applications : list AppInfo }.

Definition load_applications (env : Environ) (w : World) (self : App) : App :=
  let applications := [] in
  let applications :=
    applications ++ (scan_dirs env w ≫= scan_directory env w) in
  {| applications := sort_by_key applications |}.

(** [refresh_applications]: a load, then the dropdown and the log. *)
Definition refresh_applications (env : Environ) (w : World) (self : App) : App :=
  load_applications env w self.

(** [__init__] starts from the empty list and loads once. *)
Definition init (env : Environ) (w : World) : App :=
  load_applications env w {| applications := [] |}.

(* ===================================================================== *)
(** ** [pathlib] on POSIX *)
(* ===================================================================== *)

Module Pathlib.

(** A pure path: its root, [""], ["/"] or ["//"], and its components. *)
Record Path : Type := { root : string; parts : list string }.

Definition root_of (s : string) : string :=
  match s with
  | String "/" (String "/" (String "/" _)) => "/"
  | String "/" (String "/" _) => "//"
  | String "/" _ => "/"
  | _ => ""
  end.

Definition is_component (s : string) : bool :=
  Shlex.nonempty s && negb (String.eqb s ".").

(** [Path(s)] *)
Definition of_string (s : string) : Path :=
  {| root := root_of s; parts := List.filter is_component (Py.split "/"%char s) |}.

(** [str(p)] *)
Definition str (p : Path) : string :=
  match root p, parts p with
  | EmptyString, [] => "."
  | r, ps => r +:+ String.concat "/" ps
  end.

(** [p.is_absolute()] *)
Definition is_absolute (p : Path) : bool := Shlex.nonempty (root p).

(** [p.parent] *)
Definition parent (p : Path) : Path :=
  {| root := root p; parts := List.removelast (parts p) |}.

(** [p / s] *)
Definition joinpath (p : Path) (s : string) : Path :=
  let q := of_string s in
  if is_absolute q then q else {| root := root p; parts := parts p ++ parts q |}.

(** [p.parents], nearest first *)
Fixpoint parents_go (n : nat) (p : Path) : list Path :=
  match n with
  | O => []
  | S n' => parent p :: parents_go n' (parent p)
  end.

Definition parents (p : Path) : list Path := parents_go (List.length (parts p)) p.

End Pathlib.

(* ===================================================================== *)
(** ** Commands that change the file system *)
(* ===================================================================== *)

(** A command takes the world and gives back its outcome and the world it
    leaves, also when it raises. *)
Definition IO (A : Type) : Type := World -> outcome A * World.

Global Instance IO_ret : MRet IO := fun A a w => (Return a, w).

Global Instance IO_bind : MBind IO := fun A B f c w =>
  match c w with
  | (Return a, w') => f a w'
  | (Raise e, w') => (Raise e, w')
  end.

(** A query: the world stays as it is. *)
Definition ask {A : Type} (q : World -> A) : IO A := fun w => (Return (q w), w).

(** A call that may raise and changes nothing *)
Definition call {A : Type} (q : World -> outcome A) : IO A := fun w => (q w, w).

(** [try: c  except Exception as e: h e] *)
Definition try_io {A : Type} (c : IO A) (h : exn -> IO A) : IO A := fun w =>
  match c w with
  | (Return a, w') => (Return a, w')
  | (Raise e, w') => h e w'
  end.

Definition with_files (w : World) (fs : gmap string file) : World :=
  {| files := fs; dirs := dirs w; umask := umask w; access_X_OK := access_X_OK w;
     run_which := run_which w; glob := glob w; io_error := io_error w |}.

Definition with_dirs (w : World) (ds : gset string) : World :=
  {| files := files w; dirs := ds; umask := umask w; access_X_OK := access_X_OK w;
     run_which := run_which w; glob := glob w; io_error := io_error w |}.

(** [p.mkdir(parents=True, exist_ok=True)] *)
Definition mkdir_parents (p : Pathlib.Path) : IO unit := fun w =>
  match io_error w OpMkdir (Pathlib.str p) with
  | Some e => (Raise e, w)
  | None =>
      (Return tt,
       with_dirs w (dirs w ∪ {[Pathlib.str p]}
                    ∪ list_to_set (Pathlib.str <$> Pathlib.parents p)))
  end.

(** The mode of a file that [open(p, 'w')] creates: [0o666] less the umask. *)
Definition creation_mode (w : World) : Z := Z.land 438 (Z.lnot (umask w)).

(** [with open(p, 'w', encoding='utf-8') as f: f.write(text)]: the file is
    created or truncated, an existing file keeps its mode.  A failure is a
    failure to open. *)
Definition write_text (p text : string) : IO unit := fun w =>
  match io_error w OpWrite p with
  | Some e => (Raise e, w)
  | None =>
      if is_dir w p then (Raise OSError, w)
      else
        let m := match files w !! p with Some f => mode f | None => creation_mode w end in
        (Return tt, with_files w (<[p := {| content := text; mode := m |}]> (files w)))
  end.

(** [os.chmod(p, m)] *)
Definition chmod (p : string) (m : Z) : IO unit := fun w =>
  match io_error w OpChmod p with
  | Some e => (Raise e, w)
  | None =>
      match files w !! p with
      | Some f => (Return tt, with_files w (<[p := {| content := content f; mode := m |}]> (files w)))
      | None => if is_dir w p then (Return tt, w) else (Raise FileNotFoundError, w)
      end
  end.

(* ===================================================================== *)
(** ** The shortcut writer *)
(* ===================================================================== *)

(** What [create_shortcut] reads from the widgets *)
Record Form : Type := {
  name_var : string;
  path_var : string;
  icon_var : string;
  desc_var : string;
  categories_var : string;
  terminal_var : bool;
  dest_var : string
}.

(** How a call of [create_shortcut] ends *)
Inductive shortcut_result : Type :=
| NameMissing                       (* line 467 *)
| CommandMissing                    (* line 472 *)
| Cancelled (path : string)         (* line 541 *)
| Created (path : string)           (* line 559 *)
| Failed (e : exn).                 (* line 564 *)

Definition nl : string := String "010"%char EmptyString.

(** Lines 475-495.  [Path.exists()], [is_dir()] and [is_file()] answer
    [False] for a path that cannot be examined. *)
Definition working_dir_of (w : World) (exec_command : string) : outcome string :=
  if Py.startswith exec_command "flatpak run" || Py.startswith exec_command "snap run"
  then Return ""
  else
    let p := Pathlib.of_string exec_command in
    if Pathlib.is_absolute p && path_exists w (Pathlib.str p) then
      if is_dir w (Pathlib.str p) then Return (Pathlib.str p)
      else if is_file w (Pathlib.str p) then Return (Pathlib.str (Pathlib.parent p))
      else Return ""
    else
      resolved_bin_path ← find_executable_path w exec_command;
      let q := Pathlib.of_string resolved_bin_path in
      if Pathlib.is_absolute q && is_file w (Pathlib.str q)
      then Return (Pathlib.str (Pathlib.parent q))
      else Return "".

(** Lines 499-518: the text is built by appending, line after line. *)
Definition desktop_content_of (name exec_command working_dir : string) (form : Form) : string :=
  let desktop_content := "[Desktop Entry]" +:+ nl in
  let desktop_content := desktop_content +:+ ("Version=1.0" +:+ nl) in
  let desktop_content := desktop_content +:+ ("Type=Application" +:+ nl) in
  let desktop_content := desktop_content +:+ ("Name=" +:+ name +:+ nl) in
  let desktop_content := desktop_content +:+ ("Exec=" +:+ exec_command +:+ nl) in
  let desktop_content :=
    if Shlex.nonempty working_dir
    then desktop_content +:+ ("Path=" +:+ working_dir +:+ nl) else desktop_content in
  let desktop_content :=
    if Shlex.nonempty (Py.strip (desc_var form))
    then desktop_content +:+ ("Comment=" +:+ Py.strip (desc_var form) +:+ nl)
    else desktop_content in
  let desktop_content :=
    if Shlex.nonempty (Py.strip (icon_var form))
    then desktop_content +:+ ("Icon=" +:+ Py.strip (icon_var form) +:+ nl)
    else desktop_content in
  let desktop_content :=
    if Shlex.nonempty (Py.strip (categories_var form))
    then desktop_content +:+ ("Categories=" +:+ Py.strip (categories_var form) +:+ ";" +:+ nl)
    else desktop_content in
  let desktop_content :=
    desktop_content +:+ ("Terminal=" +:+ Py.str_bool_lower (terminal_var form) +:+ nl) in
  desktop_content +:+ ("StartupNotify=true" +:+ nl).

(** Line 528, character by character *)
Definition clean_char (c : ascii) : ascii :=
  if Py.isalnum c || Py.mem_char c " -_." then c else "_"%char.

(** Lines 528-530 *)
Definition safe_name_of (name : string) : string :=
  let safe_name := Py.replace_dunder (Py.strip (Py.map_chars clean_char name)) in
  if negb (Shlex.nonempty safe_name) then "untitled_shortcut" else safe_name.

(** Line 532 *)
Definition desktop_file_path_of (form : Form) : string :=
  Pathlib.str (Pathlib.joinpath (Pathlib.of_string (dest_var form))
                 (safe_name_of (Py.strip (name_var form)) +:+ ".desktop")).

(** [create_shortcut]; [overwrite] is what the user answers if the dialog of
    line 536 comes up. *)
Definition create_shortcut (form : Form) (overwrite : bool) : IO shortcut_result :=
  let name := Py.strip (name_var form) in
  let exec_command := Py.strip (path_var form) in
  if negb (Shlex.nonempty name) then mret NameMissing
  else if negb (Shlex.nonempty exec_command) then mret CommandMissing
  else
    working_dir ← call (fun w => working_dir_of w exec_command);
    let desktop_content := desktop_content_of name exec_command working_dir form in
    try_io
      (let dest_dir := Pathlib.of_string (dest_var form) in
       dest_exists ← ask (fun w => path_exists w (Pathlib.str dest_dir));
       _ ← (if negb dest_exists then mkdir_parents dest_dir else mret tt);
       let desktop_file_path := desktop_file_path_of form in
       file_exists ← ask (fun w => path_exists w desktop_file_path);
       if file_exists && negb overwrite then mret (Cancelled desktop_file_path)
       else
         _ ← write_text desktop_file_path desktop_content;
         _ ← chmod desktop_file_path 493;
         mret (Created desktop_file_path))
      (fun e => mret (Failed e)).

(* ===================================================================== *)
(** ** The handlers of the form *)
(* ===================================================================== *)

(** [update_app_dropdown]: the values of the dropdown and what is selected
    in it afterwards. *)
Definition update_app_dropdown (self : App) (app_var : string) : list string * string :=
  let app_names :=
    name <$> List.filter (fun app => Shlex.nonempty (name app)) (applications self) in
  (app_names, match app_names with [] => app_var | _ => "" end).

(** The values that the category box offers (lines 118-119) *)
Definition category_values : list string :=
  ["Application"; "Game"; "Development"; "Office"; "Graphics"; "AudioVideo";
   "Network"; "System"; "Utility"; "Education"; "Science"; "Finance"; "Other"].

(** Lines 365-390: the category shown for the [Categories] of an entry *)
Definition category_of (categories : string) : string :=
  if Shlex.nonempty categories then
    let categories_lower := Py.lower categories in
    let has := fun word => Py.contains word categories_lower in
    if has "game" then "Game"
    else if has "development" || has "programming" || has "ide" then "Development"
    else if has "office" || has "wordprocessor" || has "spreadsheet" || has "presentation"
    then "Office"
    else if has "graphics" || has "image" || has "photography" || has "design"
    then "Graphics"
    else if has "audiovideo" || has "audio" || has "video" || has "sound"
    then "AudioVideo"
    else if has "network" || has "internet" || has "webbrowser" then "Network"
    else if has "system" || has "utility" || has "settings" then "System"
    else if has "education" then "Education"
    else if has "science" then "Science"
    else if has "finance" then "Finance"
    else "Application"
  else "Application".

(** Line 344: the first entry of that name, if there is one *)
Definition selected_app_of (self : App) (selected_name : string) : option AppInfo :=
  List.find (fun app => String.eqb (name app) selected_name) (applications self).

(** [on_app_selected]; [selected_name] is what the dropdown holds. *)
Definition on_app_selected (self : App) (selected_name : string) (form : Form) : Form :=
  if negb (Shlex.nonempty selected_name) then form
  else
    match selected_app_of self selected_name with
    | None => form
    | Some selected_app =>
        {| name_var :=
             if negb (Shlex.nonempty (name_var form))
                || String.eqb (name_var form) selected_name
             then name selected_app else name_var form;
           path_var := resolved_path selected_app;
           icon_var := if Shlex.nonempty (icon selected_app) then icon selected_app else "";
           desc_var :=
             if Shlex.nonempty (comment selected_app) then comment selected_app else "";
           categories_var := category_of (categories selected_app);
           terminal_var := terminal selected_app;
           dest_var := dest_var form |}
    end.

(* ===================================================================== *)
(** ** Vocabulary of the statements *)
(* ===================================================================== *)

(** The three ways in which the lookup of a candidate ends. *)
Inductive lookup_result (w : World) (exec_string c : string) : string -> Prop :=
| lookup_absolute :
    isabs c = true -> path_exists w c = true -> access_X_OK w c = true ->
    lookup_result w exec_string c c
| lookup_which result :
    isabs c && (path_exists w c && access_X_OK w c) = false ->
    run_which w c = Return result -> returncode result = 0%Z ->
    access_X_OK w (Py.strip (stdout result)) = true ->
    lookup_result w exec_string c (Py.strip (stdout result))
| lookup_fallback :
    isabs c && (path_exists w c && access_X_OK w c) = false ->
    lookup_result w exec_string c exec_string.

(** The first token of the Exec string, when there is one *)
Definition first_token (exec_string : string) : option string :=
  match exec_parts exec_string with
  | Return (part0 :: _) => Some part0
  | _ => None
  end.

(** The candidate that lines 291-292 compute from the first token *)
Definition exec_candidate (exec_string : string) : option string :=
  strip_placeholders <$> first_token exec_string.

(** What [which] does with a name that has a slash in it: it looks at that
    very path and at nothing else.  For an absolute candidate [c] this says
    that [which c] succeeds only if [c] exists and is executable. *)
Definition which_agrees (w : World) (c : string) : Prop :=
  forall result,
    run_which w c = Return result -> returncode result = 0%Z ->
    path_exists w c && access_X_OK w c = true.

(** The cases in which the resolver gives up: no token; no candidate left;
    [which] finds nothing; what it found is not executable; [which] is not
    installed; the call fails in another way.  The lookup cases are about a
    lookup that takes place: the candidate was not accepted as it is. *)
Inductive resolution_fails (w : World) (exec_string : string) : Prop :=
| fails_no_token :
    exec_parts exec_string = Return [] -> resolution_fails w exec_string
| fails_no_candidate :
    exec_candidate exec_string = Some "" -> resolution_fails w exec_string
| fails_not_found c result :
    exec_candidate exec_string = Some c ->
    isabs c && (path_exists w c && access_X_OK w c) = false ->
    run_which w c = Return result -> returncode result <> 0%Z ->
    resolution_fails w exec_string
| fails_not_executable c result :
    exec_candidate exec_string = Some c ->
    isabs c && (path_exists w c && access_X_OK w c) = false ->
    run_which w c = Return result ->
    access_X_OK w (Py.strip (stdout result)) = false ->
    resolution_fails w exec_string
| fails_which_missing c :
    exec_candidate exec_string = Some c ->
    isabs c && (path_exists w c && access_X_OK w c) = false ->
    run_which w c = Raise FileNotFoundError ->
    resolution_fails w exec_string
| fails_which_error c e :
    exec_candidate exec_string = Some c ->
    isabs c && (path_exists w c && access_X_OK w c) = false ->
    run_which w c = Raise e ->
    resolution_fails w exec_string.

Definition vim_world : World :=
  {| files := {[ "/usr/bin/vim" := {| content := ""; mode := 493 |} ]};
     dirs := {[ "/usr/bin" ]};
     umask := 18;
     access_X_OK := fun p => String.eqb p "/usr/bin/vim";
     run_which := fun c =>
       Return (if String.eqb c "vim"
               then {| returncode := 0; stdout := "/usr/bin/vim" +:+ nl; stderr := "" |}
               else {| returncode := 1; stdout := ""; stderr := "" |});
     glob := fun _ => [];
     io_error := fun _ _ => None |}.

(** The text of a token before its first ['%'] *)
Definition before_percent (token : string) : string :=
  Py.first_item (Py.split "%"%char token).

(** An Exec string whose first token is quoted and has a space before its
    field code: [<quote>a %f<quote>]. *)
Definition quoted_exec : string :=
  String Shlex.dquote ("a %f" +:+ String Shlex.dquote EmptyString).

(** A system on which [which a] finds [/usr/bin/a]. *)
Definition a_world : World :=
  {| files := {[ "/usr/bin/a" := {| content := ""; mode := 493 |} ]};
     dirs := {[ "/usr/bin" ]};
     umask := 18;
     access_X_OK := fun p => String.eqb p "/usr/bin/a";
     run_which := fun c =>
       Return (if String.eqb c "a"
               then {| returncode := 0; stdout := "/usr/bin/a" +:+ nl; stderr := "" |}
               else {| returncode := 1; stdout := ""; stderr := "" |});
     glob := fun _ => [];
     io_error := fun _ _ => None |}.

(** A system on which [/usr/bin] is a directory that may be searched: it
    exists and passes the execute check, and [which] does not take a
    directory for a command. *)
Definition bin_world : World :=
  {| files := {[ "/usr/bin/vim" := {| content := ""; mode := 493 |} ]};
     dirs := {[ "/usr/bin" ]};
     umask := 18;
     access_X_OK := fun p => String.eqb p "/usr/bin" || String.eqb p "/usr/bin/vim";
     run_which := fun c =>
       Return (if String.eqb c "vim"
               then {| returncode := 0; stdout := "/usr/bin/vim" +:+ nl; stderr := "" |}
               else {| returncode := 1; stdout := ""; stderr := "" |});
     glob := fun _ => [];
     io_error := fun _ _ => None |}.

(** A system with an executable script [run.sh] in the current directory:
    [which ./run.sh] prints the name as it was given. *)
Definition script_world : World :=
  {| files := {[ "./run.sh" := {| content := "#!/bin/sh" +:+ nl; mode := 493 |} ]};
     dirs := ∅;
     umask := 18;
     access_X_OK := fun p => String.eqb p "./run.sh";
     run_which := fun c =>
       Return (if String.eqb c "./run.sh"
               then {| returncode := 0; stdout := "./run.sh" +:+ nl; stderr := "" |}
               else {| returncode := 1; stdout := ""; stderr := "" |});
     glob := fun _ => [];
     io_error := fun _ _ => None |}.

(** How [parse_desktop_file] settles the command and the icon of an entry
    with dictionary [d], read from [file_path]. *)
Inductive resolution (env : Environ) (w : World) (file_path : string)
    (d : gmap string string) : string -> string -> Prop :=
| resolve_flatpak id :
    is_flatpak env d file_path = true ->
    flatpak_id (dict_get d "Exec" "") = Some id ->
    resolution env w file_path d ("flatpak run " +:+ id)
      (if negb (Shlex.nonempty (get_localized d "Icon" (lang_code env)))
          || String.eqb (get_localized d "Icon" (lang_code env))
                        (exec_basename (dict_get d "Exec" ""))
       then id else get_localized d "Icon" (lang_code env))
| resolve_flatpak_unmatched :
    is_flatpak env d file_path = true ->
    flatpak_id (dict_get d "Exec" "") = None ->
    resolution env w file_path d (dict_get d "Exec" "")
      (get_localized d "Icon" (lang_code env))
| resolve_snap :
    is_flatpak env d file_path = false ->
    Py.contains "snap/gui" (dict_get d "Exec" "") = true ->
    resolution env w file_path d (dict_get d "Exec" "")
      (get_localized d "Icon" (lang_code env))
| resolve_plain resolved :
    is_flatpak env d file_path = false ->
    Py.contains "snap/gui" (dict_get d "Exec" "") = false ->
    find_executable_path w (dict_get d "Exec" "") = Return resolved ->
    resolution env w file_path d resolved (get_localized d "Icon" (lang_code env)).

(** The Exec line of the comment at line 238 and of the specification *)
Definition zen_exec : string :=
  "/usr/bin/flatpak run --branch=stable --arch=x86_64 --command=zen-browser app.zen_browser.zen @@u %U @@".

Definition zen_path : string :=
  "/var/lib/flatpak/exports/share/applications/app.zen_browser.zen.desktop".

Definition zen_desktop : string :=
  "[Desktop Entry]" +:+ nl +:+
  "Name=Zen Browser" +:+ nl +:+
  "Exec=" +:+ zen_exec +:+ nl +:+
  "Icon=app.zen_browser.zen" +:+ nl +:+
  "X-Flatpak=true" +:+ nl.

(** [LANG=fr_FR.UTF-8] *)
Definition fr_env : Environ :=
  {| LANG := Some "fr_FR.UTF-8"; XDG_DATA_DIRS := None; XDG_DATA_HOME := None;
     home := "/home/user" |}.

Definition foo_path : string := "/usr/share/applications/foo.desktop".

(** A file with the keys [Name=Foo] and [Name[fr]=Fou] *)
Definition foo_desktop : string :=
  "[Desktop Entry]" +:+ nl +:+
  "Name=Foo" +:+ nl +:+
  "Name[fr]=Fou" +:+ nl +:+
  "Exec=foo" +:+ nl.

(** The same with [Name[fr_FR]=Fou] *)
Definition foo_fr_FR_desktop : string :=
  "[Desktop Entry]" +:+ nl +:+
  "Name=Foo" +:+ nl +:+
  "Name[fr_FR]=Fou" +:+ nl +:+
  "Exec=foo" +:+ nl.

Definition world_with_file (path text : string) : World :=
  {| files := {[ path := {| content := text; mode := 420 |} ]};
     dirs := ∅;
     umask := 18;
     access_X_OK := fun _ => false;
     run_which := fun _ => Return {| returncode := 1; stdout := ""; stderr := "" |};
     glob := fun _ => [];
     io_error := fun _ _ => None |}.

(** The value that the wording of the specification asks for: the one of
    [key[lang]] if the file has that key, else the one of [key], else the
    empty string. *)
Definition preferred (d : gmap string string) (key lang : string) : string :=
  match d !! localized key lang with
  | Some v => v
  | None => match d !! key with Some v => v | None => "" end
  end.

(** The characters that the specification lets through *)
Definition allowed_char (c : ascii) : bool :=
  Py.isalnum c || Py.mem_char c " -_.".

(** The sanitization in the order of the specification's words: keep or
    replace each character, collapse [__] to [_] in one pass, trim, and fall
    back to a fixed name if nothing is left. *)
Definition sanitize_spec (name : string) : string :=
  let kept := Py.map_chars (fun c => if allowed_char c then c else "_"%char) name in
  let collapsed := Py.replace_dunder kept in
  let trimmed := Py.strip collapsed in
  match trimmed with
  | EmptyString => "untitled_shortcut"
  | _ => trimmed
  end.

(** The entries of a shortcut file in the words of the specification: the
    fixed keys in their order, an optional key only if it has a value. *)
Definition optional_entry (key value : string) : list (string * string) :=
  if Shlex.nonempty value then [(key, value)] else [].

Definition spec_entries (name exec_command working_dir comment icon categories : string)
    (terminal : bool) : list (string * string) :=
  [("Version", "1.0"); ("Type", "Application"); ("Name", name); ("Exec", exec_command)]
  ++ optional_entry "Path" working_dir
  ++ optional_entry "Comment" comment
  ++ optional_entry "Icon" icon
  ++ (if Shlex.nonempty categories then [("Categories", categories +:+ ";")] else [])
  ++ [("Terminal", if terminal then "true" else "false"); ("StartupNotify", "true")].

Definition render_entry (entry : string * string) : string :=
  fst entry +:+ "=" +:+ snd entry +:+ nl.

Definition render (entries : list (string * string)) : string :=
  "[Desktop Entry]" +:+ nl +:+ String.concat "" (render_entry <$> entries).

Definition key_order : list string :=
  ["Version"; "Type"; "Name"; "Exec"; "Path"; "Comment"; "Icon"; "Categories";
   "Terminal"; "StartupNotify"].

(** Permission bits: [who] is 2 for the owner, 1 for the group, 0 for the
    others; [what] is 2 to read, 1 to write, 0 to execute. *)
Definition permits (m : Z) (who what : Z) : bool := Z.testbit m (3 * who + what).

(** Owner, group and others may all read, write and execute. *)
Definition rwx_for_all (m : Z) : Prop :=
  forall who what, (0 <= who <= 2)%Z -> (0 <= what <= 2)%Z -> permits m who what = true.

(** A desktop directory that exists, and a form for it *)
Definition desktop_world : World :=
  {| files := ∅;
     dirs := {[ "/home/user/Desktop" ]};
     umask := 18;
     access_X_OK := fun _ => false;
     run_which := fun _ => Return {| returncode := 1; stdout := ""; stderr := "" |};
     glob := fun _ => [];
     io_error := fun _ _ => None |}.

Definition editor_form : Form :=
  {| name_var := "My/App:2024";
     path_var := "myapp --new-window";
     icon_var := "myapp";
     desc_var := "";
     categories_var := "Utility";
     terminal_var := false;
     dest_var := "/home/user/Desktop" |}.

(** The same directory with a shortcut of that name already in it *)
Definition occupied_world : World :=
  with_files desktop_world
    {[ "/home/user/Desktop/My_App_2024.desktop" := {| content := "old"; mode := 420 |} ]}.

(** The order of the catalog: by the lowercase of the name *)
Definition key_le (a b : AppInfo) : Prop :=
  String.leb (Py.lower (name a)) (Py.lower (name b)) = true.

(** [d] has no value for [key]: the key is missing or its value is empty. *)
Definition lacks (d : gmap string string) (key : string) : Prop :=
  dict_get d key "" = "".

(** [lang] is the language code of the environment: the value of [LANG],
    or [en_US.UTF-8] if it is not set, up to its first [.]. *)
Definition language_of (env : Environ) (lang : string) : Prop :=
  exists rest,
    environ_get (LANG env) "en_US.UTF-8" = lang +:+ rest
    /\ Py.mem_char "."%char lang = false
    /\ (rest = "" \/ exists rest', rest = String "."%char rest').

(** What holds of a catalog [catalog] loaded from the world [w]. *)
Record catalog_ok (env : Environ) (w : World) (catalog : list AppInfo) : Prop := {
  catalog_named : Forall (fun a => name a <> "" /\ exec a <> "") catalog;
  catalog_sorted : StronglySorted key_le catalog;
  catalog_parsed : forall a, a ∈ catalog ->
    parse_desktop_file env w (desktop_file a) = Some a;
  catalog_drops : forall file_path text lang,
    read_text w file_path = Return text ->
    language_of env lang ->
    (lacks (read_entries text) (localized "Name" lang)
     /\ lacks (read_entries text) "Name"
     /\ lacks (read_entries text) "GenericName")
    \/ lacks (read_entries text) "Exec" ->
    forall a, a ∈ catalog -> desktop_file a <> file_path
}.

(** A file whose only name is the one of the language: it has no [Name]
    key and no [GenericName] key. *)
Definition fou_path : string := "/usr/share/applications/fou.desktop".

Definition fou_desktop : string :=
  "[Desktop Entry]" +:+ nl +:+
  "Name[fr_FR]=Fou" +:+ nl +:+
  "Exec=fou" +:+ nl.

(** A system with that file in [/usr/share/applications/] *)
Definition fou_world : World :=
  {| files := {[ fou_path := {| content := fou_desktop; mode := 420 |} ]};
     dirs := {[ "/usr/share/applications/" ]};
     umask := 18;
     access_X_OK := fun _ => false;
     run_which := fun _ => Return {| returncode := 1; stdout := ""; stderr := "" |};
     glob := fun pattern =>
       if String.eqb pattern "/usr/share/applications/*.desktop" then [fou_path] else [];
     io_error := fun _ _ => None |}.





(** A form for a Flatpak command *)
Definition flatpak_form : Form :=
  {| name_var := "Lollypop";
     path_var := "flatpak run org.gnome.Lollypop";
     icon_var := "org.gnome.Lollypop";
     desc_var := "Play music";
     categories_var := "AudioVideo";
     terminal_var := false;
     dest_var := "/home/user/Desktop" |}.

(** [s] has no line feed in it. *)
Definition line_free (s : string) : bool :=
  Py.all_chars (fun c => negb (Ascii.eqb c "010"%char)) s.



(** The lines of a shortcut file, as the parser's loop sees them after
    [strip]: what is left of a value is the value without the whitespace at
    its end. *)
Definition insert_entries (d : gmap string string) (entries : list (string * string))
    : gmap string string :=
  List.fold_left (fun d entry => <[fst entry := Py.rstrip_by Py.isspace (snd entry)]> d)
    entries d.


(** A line that the parser takes for a section header *)
Definition is_header (line : string) : bool :=
  Py.startswith (Py.strip line) "[" && Py.endswith (Py.strip line) "]".

(** A Snap entry: its Exec line goes through [snap/gui]. *)
Definition snap_path : string := "/var/lib/snapd/desktop/applications/vlc_vlc.desktop".

Definition snap_desktop : string :=
  "[Desktop Entry]" +:+ nl +:+
  "Name=VLC" +:+ nl +:+
  "Exec=env BAMF_DESKTOP_FILE_HINT=/var/lib/snapd/desktop/applications/vlc_vlc.desktop /snap/bin/vlc --snap/gui %U" +:+ nl +:+
  "Icon=/snap/vlc/1/meta/snap/gui/vlc.png" +:+ nl.

(** A word of a command line that needs no quoting: it is not empty and has
    no whitespace, no quote, no backslash and no [%] in it. *)
Definition plain_word_char (c : ascii) : bool :=
  negb (Py.isspace c) && negb (Shlex.is_quote c) && negb (Shlex.is_escape c)
  && negb (Ascii.eqb c "%"%char).

Definition plain_word (s : string) : bool :=
  Shlex.nonempty s && Py.all_chars plain_word_char s.

(** What may follow the first word: nothing, or a space and the arguments. *)
Definition arguments (args : string) : Prop :=
  args = "" \/ exists rest, args = String " "%char rest.

(** The entries of [XDG_DATA_DIRS] *)
Definition xdg_entries (env : Environ) : list string :=
  Py.split ":"%char (environ_get (XDG_DATA_DIRS env) "").

(** [env] with another value, or none, for [XDG_DATA_HOME] *)
Definition with_xdg_data_home (env : Environ) (value : option string) : Environ :=
  {| LANG := LANG env; XDG_DATA_DIRS := XDG_DATA_DIRS env; XDG_DATA_HOME := value;
     home := home env |}.

(** What the loader parses and keeps, in the order of the scan *)
Definition scanned (env : Environ) (w : World) : list AppInfo :=
  scan_dirs env w ≫= scan_directory env w.

(** The words that lines 367-377 look for before they come to [System], and
    the words of line 379 *)
Definition earlier_words : list string :=
  ["game"; "development"; "programming"; "ide";
   "office"; "wordprocessor"; "spreadsheet"; "presentation";
   "graphics"; "image"; "photography"; "design";
   "audiovideo"; "audio"; "video"; "sound";
   "network"; "internet"; "webbrowser"].

Definition system_words : list string := ["system"; "utility"; "settings"].

(* ===================================================================== *)
(** ** Facts about the resolver *)
(* ===================================================================== *)

#[local] Arguments Ascii.eqb : simpl never.
#[local] Arguments String.eqb : simpl never.
#[local] Arguments Py.isspace : simpl never.
#[local] Arguments Py.isalnum : simpl never.
#[local] Arguments Py.lower_char : simpl never.
#[local] Arguments clean_char : simpl never.
#[local] Arguments allowed_char : simpl never.

Ltac unfold_bind := unfold mbind, outcome_bind, mret, outcome_ret in *.

(** The lexer raises nothing but [ValueError]. *)
Lemma lex_raises_ValueError s :
  forall st es tok q e, Shlex.lex s st es tok q = Raise e -> e = ValueError.
Proof.
  induction s as [|c r IH]; intros st es tok q e H; simpl in H.
  - destruct st; congruence.
  - destruct st; unfold_bind;
      repeat match type of H with
      | context [if ?b then _ else _] => destruct b
      | context [match Shlex.lex ?a ?b ?c ?d ?f with _ => _ end] =>
          destruct (Shlex.lex a b c d f) eqn:?
      end;
      try congruence; simplify_eq; eauto.
Qed.

Lemma exec_parts_returns s : exists parts, exec_parts s = Return parts.
Proof.
  unfold exec_parts, try_except, Shlex.split.
  destruct (Shlex.lex s _ _ _ _) as [ps|e] eqn:H; [eauto|].
  apply lex_raises_ValueError in H as ->. simpl. eauto.
Qed.

Lemma lookup_candidate_result w exec_string c :
  exists r, lookup_candidate w exec_string c = Return r
            /\ lookup_result w exec_string c r.
Proof.
  unfold lookup_candidate.
  destruct (isabs c && (path_exists w c && access_X_OK w c)) eqn:Habs.
  - apply andb_true_iff in Habs as [? [? ?]%andb_true_iff].
    eexists; split; [reflexivity|]. by constructor.
  - unfold try_except. unfold_bind.
    destruct (run_which w c) as [result|e] eqn:Hw; simpl.
    + destruct (returncode result =? 0)%Z eqn:Hrc.
      * apply Z.eqb_eq in Hrc.
        destruct (access_X_OK w (Py.strip (stdout result))) eqn:Hx;
          eexists; (split; [reflexivity|]).
        -- by eapply lookup_which.
        -- by apply lookup_fallback.
      * eexists; split; [reflexivity|]. by apply lookup_fallback.
    + eexists; split; [reflexivity|]. by apply lookup_fallback.
Qed.

Lemma find_executable_path_unfold w s :
  find_executable_path w s =
    match exec_candidate s with
    | Some c => if Shlex.nonempty c then lookup_candidate w s c else Return s
    | None => Return s
    end.
Proof.
  unfold find_executable_path, exec_candidate, first_token.
  destruct (exec_parts_returns s) as [ps ->]. unfold_bind.
  destruct ps as [|p ps]; simpl; [done|].
  by destruct (Shlex.nonempty (strip_placeholders p)).
Qed.

Lemma find_executable_path_returns w s :
  exists r, find_executable_path w s = Return r.
Proof.
  rewrite find_executable_path_unfold.
  destruct (exec_candidate s) as [c|]; [|eauto].
  destruct (Shlex.nonempty c); [|eauto].
  destruct (lookup_candidate_result w s c) as (r & -> & _). eauto.
Qed.

Lemma nonempty_false s : Shlex.nonempty s = false <-> s = "".
Proof. destruct s; simpl; split; congruence. Qed.

Lemma nonempty_true s : Shlex.nonempty s = true <-> s <> "".
Proof. destruct s; simpl; split; congruence. Qed.

Lemma lookup_fails_original w s c r :
  exec_candidate s = Some c -> Shlex.nonempty c = true ->
  lookup_result w s c r -> resolution_fails w s -> r = s.
Proof.
  intros Hc Hne Hr Hfail.
  assert (exec_parts s <> Return []) as Hparts.
  { intros Hp. unfold exec_candidate, first_token in Hc. by rewrite Hp in Hc. }
  destruct Hr as [Habs Hex Hacc | result Hno Hrun Hrc Hacc | ]; [| |done].
  - (* accepted as it is: no failure case applies *)
    assert (isabs c && (path_exists w c && access_X_OK w c) = true) as Hyes
      by (by rewrite Habs, Hex, Hacc).
    destruct Hfail as [Hp | Hp | c' ? Hp Hf | c' ? Hp Hf | c' Hp Hf | c' ? Hp Hf];
      try done; rewrite Hc in Hp; simplify_eq; congruence.
  - (* found by [which]: no failure case applies either *)
    destruct Hfail as [Hp | Hp | c' r' Hp _ Hr' Hrc' | c' r' Hp _ Hr' Hna
                       | c' Hp _ Hr' | c' ? Hp _ Hr'];
      try done; rewrite Hc in Hp; simplify_eq; congruence.
Qed.

Lemma lookup_absolute_fails w s c r :
  isabs c = true -> path_exists w c && access_X_OK w c = false -> which_agrees w c ->
  lookup_result w s c r -> r = s.
Proof.
  intros Habs Hno Hwhich [_ Hex Hacc | result _ Hrun Hrc _ | ]; [| |done].
  - rewrite Hex, Hacc in Hno. discriminate Hno.
  - rewrite (Hwhich _ Hrun Hrc) in Hno. discriminate Hno.
Qed.

(** C3, as the code has it.  [find_executable_path] returns on every input
    and never raises.  What it returns is the input itself, or the candidate
    when that is an absolute path that exists and passes the execute check
    (a file or a directory), or what a successful [which] printed for the
    candidate, trimmed, when that passes the execute check (it is not asked
    to be absolute).  In each failure case (no token, no candidate left after
    the field codes are stripped, [which] finding nothing, the path found not
    being executable, [which] not installed, any other error of the lookup)
    it returns the input unchanged.  An absolute candidate that is missing or
    not executable is looked up with [which] like any other; the input comes
    back unchanged if [which] looks at that very path. *)
Theorem find_executable_path_never_raises w exec_string :
  exists r,
    find_executable_path w exec_string = Return r
    /\ (r = exec_string
        \/ (exec_candidate exec_string = Some r
            /\ isabs r = true /\ path_exists w r = true /\ access_X_OK w r = true)
        \/ (exists c result,
              exec_candidate exec_string = Some c
              /\ run_which w c = Return result /\ returncode result = 0%Z
              /\ r = Py.strip (stdout result) /\ access_X_OK w r = true))
    /\ (resolution_fails w exec_string -> r = exec_string)
    /\ (forall c,
          exec_candidate exec_string = Some c -> isabs c = true ->
          path_exists w c && access_X_OK w c = false -> which_agrees w c ->
          r = exec_string).
Proof.
  rewrite find_executable_path_unfold.
  destruct (exec_candidate exec_string) as [c|] eqn:Hc.
  2: { exists exec_string. repeat split; auto. }
  destruct (Shlex.nonempty c) eqn:Hne.
  2: { exists exec_string. repeat split; auto. }
  destruct (lookup_candidate_result w exec_string c) as (r & -> & Hr).
  exists r. split; [done|]. split; [|split].
  - destruct Hr as [Habs Hex Hacc | result ? Hrun Hrc Hacc |]; [right; left|right; right|left];
      [done| |done].
    exists c, result. done.
  - by eapply lookup_fails_original.
  - intros c' [= <-] Habs Hno Hwhich. by eapply lookup_absolute_fails.
Qed.

Lemma find_executable_path_never_raises_witness :
  (resolution_fails vim_world "emacs %F"
   /\ find_executable_path vim_world "emacs %F" = Return "emacs %F")
  /\ (which_agrees vim_world "/opt/vim/bin/vim"
      /\ find_executable_path vim_world "/opt/vim/bin/vim %F" = Return "/opt/vim/bin/vim %F").
Proof.
  assert (resolution_fails vim_world "emacs %F") as Hfail.
  { eapply (fails_not_found _ _ "emacs"); [reflexivity|reflexivity|reflexivity|].
    simpl. lia. }
  assert (which_agrees vim_world "/opt/vim/bin/vim") as Hwhich.
  { intros result [= <-]. simpl. lia. }
  split.
  - split; [exact Hfail|].
    destruct (find_executable_path_never_raises vim_world "emacs %F")
      as (r & Hr & _ & Hgives_up & _).
    rewrite Hr. f_equal. exact (Hgives_up Hfail).
  - split; [exact Hwhich|].
    destruct (find_executable_path_never_raises vim_world "/opt/vim/bin/vim %F")
      as (r & Hr & _ & _ & Habsolute).
    rewrite Hr. f_equal.
    exact (Habsolute "/opt/vim/bin/vim" eq_refl eq_refl eq_refl Hwhich).
Defined.

(** C3 as it is worded fails here.  The first token of [/usr/bin %U] is the
    directory [/usr/bin]: it is absolute, it exists and it passes the execute
    check, so it is what the resolver returns; it is neither an executable
    file nor the input.  And for [./run.sh --flag] the resolver returns what
    [which] printed, [./run.sh], which is neither absolute nor the input. *)
Lemma resolved_path_is_not_an_executable_file :
  (find_executable_path bin_world "/usr/bin %U" = Return "/usr/bin"
   /\ "/usr/bin" <> "/usr/bin %U"
   /\ is_dir bin_world "/usr/bin" = true
   /\ is_file bin_world "/usr/bin" = false)
  /\ (find_executable_path script_world "./run.sh --flag" = Return "./run.sh"
      /\ "./run.sh" <> "./run.sh --flag"
      /\ isabs "./run.sh" = false).
Proof. repeat split; try (vm_compute; reflexivity); discriminate. Qed.

Example find_executable_path_vim :
  find_executable_path vim_world "vim %F" = Return "/usr/bin/vim"
  /\ find_executable_path vim_world "/usr/bin/vim %F" = Return "/usr/bin/vim"
  /\ find_executable_path vim_world "emacs %F" = Return "emacs %F".
Proof. repeat split; vm_compute; reflexivity. Qed.

Lemma split_nonempty sep s : Py.split sep s <> [].
Proof.
  destruct s as [|c r]; simpl; [done|].
  destruct (Ascii.eqb c sep); [done|]. by destruct (Py.split sep r).
Qed.

Lemma before_percent_prefix token :
  Py.mem_char "%"%char token = true ->
  exists rest,
    token = before_percent token +:+ "%" +:+ rest
    /\ Py.mem_char "%"%char (before_percent token) = false.
Proof.
  unfold before_percent.
  induction token as [|c r IH]; simpl; [done|].
  rewrite (Ascii.eqb_sym "%"%char c).
  destruct (Ascii.eqb c "%"%char) eqn:Hc; simpl.
  - apply Ascii.eqb_eq in Hc as ->. eauto.
  - intros [rest [Hr Hm]]%IH.
    destruct (Py.split "%"%char r) as [|h t] eqn:Hs; [by destruct (split_nonempty _ _ Hs)|].
    simpl in *. exists rest. rewrite (Ascii.eqb_sym "%"%char c), Hc. simpl.
    split; [rewrite Hr at 1; reflexivity | done].
Qed.

(** C10, as the code has it.  When the first token of the Exec string
    contains ['%'], the token is cut at its first ['%'] and all that follows is
    dropped; the candidate that is looked up is that prefix with the
    whitespace around it trimmed; and if nothing is left, as when the prefix
    is empty, the original string is returned unchanged. *)
Theorem candidate_is_trimmed_prefix w exec_string token :
  first_token exec_string = Some token ->
  Py.mem_char "%"%char token = true ->
  exists prefix rest,
    token = prefix +:+ "%" +:+ rest
    /\ Py.mem_char "%"%char prefix = false
    /\ exec_candidate exec_string = Some (Py.strip prefix)
    /\ find_executable_path w exec_string =
         (if Shlex.nonempty (Py.strip prefix)
          then lookup_candidate w exec_string (Py.strip prefix)
          else Return exec_string)
    /\ (prefix = "" -> find_executable_path w exec_string = Return exec_string).
Proof.
  intros Htok [rest [Hsplit Hfree]]%before_percent_prefix.
  exists (before_percent token), rest.
  assert (exec_candidate exec_string = Some (Py.strip (before_percent token))) as Hc.
  { unfold exec_candidate. by rewrite Htok. }
  repeat split; try done.
  - by rewrite find_executable_path_unfold, Hc.
  - intros Hempty. by rewrite find_executable_path_unfold, Hc, Hempty.
Qed.

Lemma candidate_is_trimmed_prefix_witness :
  first_token "vim%F --remote" = Some "vim%F"
  /\ Py.mem_char "%"%char "vim%F" = true
  /\ exists prefix rest,
       "vim%F" = prefix +:+ "%" +:+ rest
       /\ Py.mem_char "%"%char prefix = false
       /\ exec_candidate "vim%F --remote" = Some (Py.strip prefix)
       /\ find_executable_path vim_world "vim%F --remote" =
            (if Shlex.nonempty (Py.strip prefix)
             then lookup_candidate vim_world "vim%F --remote" (Py.strip prefix)
             else Return "vim%F --remote")
       /\ (prefix = "" ->
           find_executable_path vim_world "vim%F --remote" = Return "vim%F --remote").
Proof.
  split; [reflexivity|]. split; [reflexivity|].
  apply (candidate_is_trimmed_prefix vim_world "vim%F --remote" "vim%F");
    reflexivity.
Defined.

(** C10 as it is worded fails here: the first token is [a %f], the text before
    its first ['%'] is [a] followed by a space, and the candidate that is
    looked up is [a] without the space: [which a] is what resolves it. *)
Lemma candidate_is_not_the_bare_prefix :
  first_token quoted_exec = Some "a %f"
  /\ Py.mem_char "%"%char "a %f" = true
  /\ before_percent "a %f" = "a "
  /\ exec_candidate quoted_exec = Some "a"
  /\ exec_candidate quoted_exec <> Some (before_percent "a %f")
  /\ find_executable_path a_world quoted_exec = Return "/usr/bin/a".
Proof. repeat split; try (vm_compute; reflexivity). vm_compute. discriminate. Qed.

(* ===================================================================== *)
(** ** Facts about the parser *)
(* ===================================================================== *)

Lemma parse_content_returns env w file_path text :
  let d := read_entries text in
  exists resolved icon',
    resolution env w file_path d resolved icon'
    /\ parse_content env w file_path text =
         Return {| name := entry_name d (lang_code env);
                   exec := dict_get d "Exec" "";
                   resolved_path := resolved;
                   icon := icon';
                   comment := get_localized d "Comment" (lang_code env);
                   categories := dict_get d "Categories" "";
                   terminal := String.eqb (Py.lower (dict_get d "Terminal" "")) "true";
                   desktop_file := file_path |}.
Proof.
  intros d. unfold parse_content. fold d.
  destruct (is_flatpak env d file_path) eqn:Hf.
  - destruct (flatpak_id (dict_get d "Exec" "")) as [id|] eqn:Hid.
    + do 2 eexists. split; [by eapply resolve_flatpak|]. reflexivity.
    + do 2 eexists. split; [by eapply resolve_flatpak_unmatched|]. reflexivity.
  - unfold is_snap. rewrite Hf, andb_true_r.
    destruct (Py.contains "snap/gui" (dict_get d "Exec" "")) eqn:Hs.
    + do 2 eexists. split; [by eapply resolve_snap|]. reflexivity.
    + destruct (find_executable_path_returns w (dict_get d "Exec" "")) as [r Hr].
      do 2 eexists. split; [by eapply resolve_plain|].
      unfold_bind. rewrite Hr. reflexivity.
Qed.

Lemma parse_desktop_file_read env w file_path text :
  read_text w file_path = Return text ->
  parse_desktop_file env w file_path =
    match parse_content env w file_path text with
    | Return info => Some info
    | Raise _ => None
    end.
Proof. intros H. unfold parse_desktop_file. unfold_bind. by rewrite H. Qed.

Lemma parse_desktop_file_Some env w file_path info :
  parse_desktop_file env w file_path = Some info ->
  exists text,
    read_text w file_path = Return text
    /\ parse_content env w file_path text = Return info.
Proof.
  unfold parse_desktop_file. unfold_bind.
  destruct (read_text w file_path) as [text|e]; [|done].
  destruct (parse_content env w file_path text) eqn:Hp; [|done].
  intros [= <-]. eauto.
Qed.

(** Part of C1 that holds: a Flatpak entry whose Exec line gives no ID keeps
    its Exec line, and one whose Exec line gives an ID is resolved to
    [flatpak run] and that ID. *)
Lemma flatpak_resolution env w file_path text info :
  is_flatpak env (read_entries text) file_path = true ->
  parse_content env w file_path text = Return info ->
  resolved_path info =
    match flatpak_id (exec info) with
    | Some id => "flatpak run " +:+ id
    | None => exec info
    end.
Proof.
  intros Hf Hp.
  destruct (parse_content_returns env w file_path text) as (r & i & Hres & Hret).
  rewrite Hret in Hp. injection Hp as <-. simpl.
  destruct Hres as [id _ -> | _ -> | Hno _ | ? Hno _ _]; congruence.
Qed.

Example flatpak_id_examples :
  flatpak_id "flatpak run org.gnome.Lollypop" = Some "org.gnome.Lollypop"
  /\ flatpak_id "/usr/bin/flatpak run --branch=stable --command=zen-browser app.zen_browser.zen @@u %U @@"
     = Some "app.zen_browser.zen"
  /\ flatpak_id "flatpak run --command=foo.sh --file-forwarding org.x.Y @@u %u @@"
     = Some "--file-forwarding"
  /\ flatpak_id "flatpak run --arch=x86_64 org.x.Y" = None.
Proof. repeat split; vm_compute; reflexivity. Qed.

(** C1 at the Exec line that the comment of line 238 and the specification
    give: the pattern does not match it, because the flag [--arch=x86_64] has
    an underscore, which neither the class of the flags nor, after the [=],
    the class of the ID takes.  The entry keeps its whole Exec line where
    [flatpak run app.zen_browser.zen] was meant. *)
Theorem flatpak_zen_exec_not_simplified env w :
  flatpak_id zen_exec = None
  /\ exists info,
       parse_content env w zen_path zen_desktop = Return info
       /\ exec info = zen_exec
       /\ resolved_path info = zen_exec
       /\ resolved_path info <> "flatpak run app.zen_browser.zen".
Proof.
  assert (flatpak_id zen_exec = None) as Hid by (vm_compute; reflexivity).
  split; [done|].
  destruct (parse_content_returns env w zen_path zen_desktop) as (r & i & Hres & Hret).
  assert (dict_get (read_entries zen_desktop) "Exec" "" = zen_exec) as He
    by (vm_compute; reflexivity).
  eexists. split; [exact Hret|]. simpl. split; [done|].
  assert (is_flatpak env (read_entries zen_desktop) zen_path = true) as Hf.
  { unfold is_flatpak.
    replace (Py.startswith zen_path flatpak_system_dir) with true
      by (vm_compute; reflexivity).
    by rewrite orb_true_r. }
  destruct Hres as [id _ Hid' | _ _ | Hno _ | ? Hno _ _]; try congruence.
  rewrite He. split; [done|]. vm_compute. discriminate.
Qed.

Example parse_zen :
  resolved_path <$> parse_desktop_file fr_env (world_with_file zen_path zen_desktop) zen_path
  = Some zen_exec.
Proof. vm_compute. reflexivity. Qed.

(** The first item of a split has no separator in it and is the text up to
    the first separator. *)
Lemma first_item_split sep s :
  exists rest,
    s = Py.first_item (Py.split sep s) +:+ rest
    /\ Py.mem_char sep (Py.first_item (Py.split sep s)) = false
    /\ (rest = "" \/ exists rest', rest = String sep rest').
Proof.
  induction s as [|c r (rest & Hr & Hm & Hrest)]; simpl.
  - exists "". eauto.
  - destruct (Ascii.eqb c sep) eqn:Hc; simpl.
    + apply Ascii.eqb_eq in Hc as ->. exists (String sep r). eauto.
    + destruct (Py.split sep r) as [|h t] eqn:Hs; [by destruct (split_nonempty _ _ Hs)|].
      simpl in *. exists rest. rewrite (Ascii.eqb_sym sep c), Hc. simpl.
      split; [rewrite Hr at 1; reflexivity | done].
Qed.

Lemma get_localized_preferred d key lang :
  get_localized d key lang = preferred d key lang.
Proof.
  unfold get_localized, preferred, dict_get.
  destruct (d !! localized key lang); [done|]. by destruct (d !! key).
Qed.

(** C2 as it is worded fails: with [LANG=fr_FR.UTF-8] the key that is looked
    up is [Name[fr_FR]]; a file with [Name=Foo] and [Name[fr]=Fou] is named
    [Foo]. *)
Lemma locale_fr_name_is_not_Fou :
  lang_code fr_env = "fr_FR"
  /\ read_entries foo_desktop !! "Name" = Some "Foo"
  /\ read_entries foo_desktop !! "Name[fr]" = Some "Fou"
  /\ name <$> parse_desktop_file fr_env (world_with_file foo_path foo_desktop) foo_path
     = Some "Foo"
  /\ name <$> parse_desktop_file fr_env (world_with_file foo_path foo_desktop) foo_path
     <> Some "Fou".
Proof. repeat split; try (vm_compute; reflexivity). vm_compute. discriminate. Qed.

(** C2, as the code has it.  The language code is the value of [LANG], or of
    [en_US.UTF-8] if [LANG] is not set, up to its first dot.  For a file that
    can be read, the entry's name is the value of [Name[code]] if the file
    has that key, else that of [Name]; if that is empty, it is the value of
    [GenericName].  The comment is chosen in the same way among
    [Comment[code]] and [Comment], and so is the icon among [Icon[code]] and
    [Icon], unless the entry is a Flatpak one whose icon is set to its ID. *)
Theorem locale_preference env w file_path text :
  read_text w file_path = Return text ->
  let d := read_entries text in
  let lang := lang_code env in
  (exists rest,
      environ_get (LANG env) "en_US.UTF-8" = lang +:+ rest
      /\ Py.mem_char "."%char lang = false
      /\ (rest = "" \/ exists rest', rest = String "."%char rest'))
  /\ exists info,
       parse_desktop_file env w file_path = Some info
       /\ name info = (if Shlex.nonempty (preferred d "Name" lang)
                       then preferred d "Name" lang
                       else default "" (d !! "GenericName"))
       /\ comment info = preferred d "Comment" lang
       /\ (icon info = preferred d "Icon" lang
           \/ (is_flatpak env d file_path = true
               /\ flatpak_id (exec info) = Some (icon info))).
Proof.
  intros Hread d lang. split; [apply first_item_split|].
  rewrite (parse_desktop_file_read _ _ _ _ Hread).
  destruct (parse_content_returns env w file_path text) as (r & i & Hres & ->).
  eexists. split; [reflexivity|]. simpl. fold d lang.
  split; [|split].
  - unfold entry_name. rewrite get_localized_preferred.
    by destruct (Shlex.nonempty (preferred d "Name" lang)).
  - apply get_localized_preferred.
  - fold d in Hres. rewrite <- !get_localized_preferred.
    destruct Hres as [id Hf Hid | | |]; auto.
    fold lang.
    destruct (negb (Shlex.nonempty (get_localized d "Icon" lang))
              || String.eqb (get_localized d "Icon" lang)
                            (exec_basename (dict_get d "Exec" ""))); auto.
Qed.

Lemma locale_preference_witness :
  read_text (world_with_file foo_path foo_fr_FR_desktop) foo_path = Return foo_fr_FR_desktop
  /\ let d := read_entries foo_fr_FR_desktop in
     let lang := lang_code fr_env in
     (exists rest,
         environ_get (LANG fr_env) "en_US.UTF-8" = lang +:+ rest
         /\ Py.mem_char "."%char lang = false
         /\ (rest = "" \/ exists rest', rest = String "."%char rest'))
     /\ exists info,
          parse_desktop_file fr_env (world_with_file foo_path foo_fr_FR_desktop) foo_path
          = Some info
          /\ name info = (if Shlex.nonempty (preferred d "Name" lang)
                          then preferred d "Name" lang
                          else default "" (d !! "GenericName"))
          /\ comment info = preferred d "Comment" lang
          /\ (icon info = preferred d "Icon" lang
              \/ (is_flatpak fr_env d foo_path = true
                  /\ flatpak_id (exec info) = Some (icon info))).
Proof.
  split; [vm_compute; reflexivity|].
  apply (locale_preference fr_env (world_with_file foo_path foo_fr_FR_desktop)
           foo_path foo_fr_FR_desktop).
  vm_compute; reflexivity.
Defined.

Example locale_fr_FR_name_is_Fou :
  name <$> parse_desktop_file fr_env (world_with_file foo_path foo_fr_FR_desktop) foo_path
  = Some "Fou".
Proof. vm_compute. reflexivity. Qed.

(* ===================================================================== *)
(** ** Facts about the file name of a shortcut *)
(* ===================================================================== *)

Section Strip.
Variable p : ascii -> bool.

Lemma lstrip_by_idemp s : Py.lstrip_by p (Py.lstrip_by p s) = Py.lstrip_by p s.
Proof.
  induction s as [|c r IH]; simpl; [done|].
  destruct (p c) eqn:Hc; [done|]. simpl. by rewrite Hc.
Qed.

Lemma rstrip_by_cons_keep c s :
  p c = false -> Py.rstrip_by p (String c s) = String c (Py.rstrip_by p s).
Proof. intros Hc. simpl. rewrite Hc. by destruct (Py.rstrip_by p s). Qed.

Lemma rstrip_by_idemp s : Py.rstrip_by p (Py.rstrip_by p s) = Py.rstrip_by p s.
Proof.
  induction s as [|c r IH]; simpl; [done|].
  destruct (Py.rstrip_by p r) as [|c' r'] eqn:Hr.
  - destruct (p c) eqn:Hc; simpl; [done|]. by rewrite Hc.
  - change (Py.rstrip_by p (String c (String c' r')) = String c (String c' r')).
    cbn [Py.rstrip_by]. cbn [Py.rstrip_by] in IH. by rewrite IH.
Qed.

Lemma rstrip_lstrip_by s :
  Py.rstrip_by p (Py.lstrip_by p s) = Py.lstrip_by p (Py.rstrip_by p s).
Proof.
  induction s as [|c r IH]; simpl; [done|].
  destruct (p c) eqn:Hc.
  - rewrite IH. destruct (Py.rstrip_by p r); simpl; [done|]. by rewrite Hc.
  - change (Py.rstrip_by p (String c r)
            = Py.lstrip_by p (match Py.rstrip_by p r with
                              | "" => String c ""
                              | String a s' => String c (String a s')
                              end)).
    rewrite (rstrip_by_cons_keep _ _ Hc).
    destruct (Py.rstrip_by p r); simpl; by rewrite Hc.
Qed.

Lemma strip_by_idemp s : Py.strip_by p (Py.strip_by p s) = Py.strip_by p s.
Proof.
  unfold Py.strip_by.
  by rewrite rstrip_lstrip_by, rstrip_by_idemp, lstrip_by_idemp.
Qed.

Lemma all_chars_lstrip_by q s :
  Py.all_chars q s = true -> Py.all_chars q (Py.lstrip_by p s) = true.
Proof.
  induction s as [|c r IH]; simpl; [done|].
  intros [Hc Hr]%andb_true_iff. destruct (p c); [auto|]. simpl. by rewrite Hc.
Qed.

Lemma all_chars_rstrip_by q s :
  Py.all_chars q s = true -> Py.all_chars q (Py.rstrip_by p s) = true.
Proof.
  induction s as [|c r IH]; simpl; [done|].
  intros [Hc Hr]%andb_true_iff. specialize (IH Hr).
  destruct (Py.rstrip_by p r); [destruct (p c)|]; simpl in *; by rewrite ?Hc.
Qed.

(** Stripping and collapsing do not get in each other's way, as long as
    the underscore is not among the characters that are stripped. *)
Hypothesis underscore_stays : p "_"%char = false.

Lemma eqb_underscore_keep c : Ascii.eqb c "_"%char = true -> p c = false.
Proof. by intros ->%Ascii.eqb_eq. Qed.

Lemma replace_dunder_cons_other c s :
  Ascii.eqb c "_"%char = false ->
  Py.replace_dunder (String c s) = String c (Py.replace_dunder s).
Proof. intros Hc. destruct s; simpl; [done|]. by rewrite Hc. Qed.

Lemma lstrip_replace_dunder s :
  Py.lstrip_by p (Py.replace_dunder s) = Py.replace_dunder (Py.lstrip_by p s).
Proof.
  induction s as [|c r IH]; [done|].
  destruct (Ascii.eqb c "_"%char) eqn:Hc.
  - pose proof (eqb_underscore_keep _ Hc) as Hp.
    cbn [Py.lstrip_by]. rewrite Hp.
    destruct r as [|d r']; simpl; [by rewrite Hp|].
    rewrite Hc. destruct (Ascii.eqb d "_"%char); simpl.
    + by rewrite underscore_stays.
    + by rewrite Hp.
  - rewrite (replace_dunder_cons_other _ _ Hc). cbn [Py.lstrip_by].
    destruct (p c); [done|]. by rewrite (replace_dunder_cons_other _ _ Hc).
Qed.

Lemma replace_dunder_empty s : Py.replace_dunder s = "" -> s = "".
Proof.
  destruct s as [|c [|d r]]; simpl; try done.
  by destruct (Ascii.eqb c "_"%char && Ascii.eqb d "_"%char).
Qed.

Lemma rstrip_replace_dunder_two s :
  Py.rstrip_by p (Py.replace_dunder s) = Py.replace_dunder (Py.rstrip_by p s)
  /\ forall c, Py.rstrip_by p (Py.replace_dunder (String c s))
               = Py.replace_dunder (Py.rstrip_by p (String c s)).
Proof.
  induction s as [|d r [IH1 IH2]].
  - split; [done|]. intros c. simpl. by destruct (p c).
  - split; [apply IH2|]. intros c.
    destruct (Ascii.eqb c "_"%char && Ascii.eqb d "_"%char) eqn:Hcd.
    + apply andb_true_iff in Hcd as [Hc Hd].
      pose proof (eqb_underscore_keep _ Hc) as Hpc.
      pose proof (eqb_underscore_keep _ Hd) as Hpd.
      rewrite !rstrip_by_cons_keep by done.
      cbn [Py.replace_dunder]. rewrite Hc, Hd. simpl andb. cbv iota.
      rewrite rstrip_by_cons_keep by apply underscore_stays.
      by rewrite IH1.
    + assert (Py.replace_dunder (String c (String d r))
              = String c (Py.replace_dunder (String d r))) as ->.
      { cbn [Py.replace_dunder]. by rewrite Hcd. }
      cbn [Py.rstrip_by]. rewrite (IH2 d). cbn [Py.rstrip_by].
      destruct (Py.rstrip_by p r) as [|e r'] eqn:Hr.
      * destruct (p d) eqn:Hpd; simpl.
        -- by destruct (p c).
        -- by rewrite Hcd.
      * destruct (Py.replace_dunder (String d (String e r'))) eqn:Hrd;
          [by apply replace_dunder_empty in Hrd|].
        rewrite <- Hrd. cbn [Py.replace_dunder]. by rewrite Hcd.
Qed.

Lemma strip_replace_dunder s :
  Py.strip_by p (Py.replace_dunder s) = Py.replace_dunder (Py.strip_by p s).
Proof.
  unfold Py.strip_by.
  rewrite (proj1 (rstrip_replace_dunder_two s)). apply lstrip_replace_dunder.
Qed.
End Strip.

Lemma all_chars_impl (p q : ascii -> bool) s :
  (forall c, p c = true -> q c = true) ->
  Py.all_chars p s = true -> Py.all_chars q s = true.
Proof.
  intros Hpq. induction s as [|c r IH]; simpl; [done|].
  intros [Hc Hr]%andb_true_iff. by rewrite (Hpq _ Hc), IH.
Qed.

Lemma all_chars_replace_dunder q s :
  Py.all_chars q s = true -> Py.all_chars q (Py.replace_dunder s) = true.
Proof.
  assert (forall s, (Py.all_chars q s = true -> Py.all_chars q (Py.replace_dunder s) = true)
                    /\ forall c, Py.all_chars q (String c s) = true ->
                                 Py.all_chars q (Py.replace_dunder (String c s)) = true)
    as H; [|apply H].
  clear s. induction s as [|d r [IH1 IH2]].
  - split; [done|]. intros c. by simpl.
  - split; [apply IH2|]. intros c Hall.
    cbn [Py.replace_dunder].
    destruct (Ascii.eqb c "_"%char && Ascii.eqb d "_"%char) eqn:Hcd.
    + apply andb_true_iff in Hcd as [Hc%Ascii.eqb_eq _]. subst c.
      simpl in Hall. apply andb_true_iff in Hall as [Hc [_ Hr]%andb_true_iff].
      simpl. by rewrite Hc, IH1.
    + simpl in Hall. apply andb_true_iff in Hall as [Hc Hr].
      change (q c && Py.all_chars q (Py.replace_dunder (String d r)) = true).
      rewrite Hc. simpl. apply IH2. exact Hr.
Qed.

Lemma clean_char_allowed c : allowed_char (clean_char c) = true.
Proof.
  unfold clean_char. fold (allowed_char c).
  destruct (allowed_char c) eqn:Hc; [done|]. reflexivity.
Qed.

Lemma all_chars_map_clean s :
  Py.all_chars allowed_char (Py.map_chars clean_char s) = true.
Proof.
  induction s as [|c r IH]; cbn [Py.all_chars Py.map_chars]; [done|].
  by rewrite clean_char_allowed, IH.
Qed.

(** C5.  The file name of a shortcut is what the specification's order of
    steps gives (keep letters, digits, space, hyphen, underscore and dot and
    put an underscore for every other character; collapse [__] to [_] in one
    pass from the left; trim the whitespace around; take the fixed name
    [untitled_shortcut] if nothing is left).  It has only allowed characters,
    is not empty and has no whitespace around it.  One pass leaves [__] where
    there were three or four underscores; and [My/App:2024] gives
    [My_App_2024]. *)
Theorem safe_name_sanitizes name :
  safe_name_of name = sanitize_spec name
  /\ Py.all_chars allowed_char (safe_name_of name) = true
  /\ safe_name_of name <> ""
  /\ Py.strip (safe_name_of name) = safe_name_of name
  /\ safe_name_of "a///b" = "a__b"
  /\ safe_name_of "My/App:2024" = "My_App_2024".
Proof.
  assert (Py.isspace "_"%char = false) as Hu by reflexivity.
  assert (safe_name_of name = sanitize_spec name) as Heq.
  { unfold safe_name_of, sanitize_spec.
    change (Py.map_chars (fun c => if allowed_char c then c else "_"%char) name)
      with (Py.map_chars clean_char name).
    unfold Py.strip. rewrite (strip_replace_dunder _ Hu).
    by destruct (Py.replace_dunder _). }
  assert (safe_name_of "a///b" = "a__b") as Hpass by (vm_compute; reflexivity).
  assert (safe_name_of "My/App:2024" = "My_App_2024") as Hex by (vm_compute; reflexivity).
  split; [done|].
  assert (Py.all_chars allowed_char (safe_name_of name) = true
          /\ safe_name_of name <> ""
          /\ Py.strip (safe_name_of name) = safe_name_of name) as (? & ? & ?);
    [|done].
  unfold safe_name_of.
  set (core := Py.replace_dunder (Py.strip (Py.map_chars clean_char name))).
  assert (Py.all_chars allowed_char core = true) as Hall.
  { apply all_chars_replace_dunder. unfold Py.strip, Py.strip_by.
    apply all_chars_lstrip_by, all_chars_rstrip_by, all_chars_map_clean. }
  assert (Py.strip core = core) as Hstrip.
  { unfold core, Py.strip. by rewrite (strip_replace_dunder _ Hu), strip_by_idemp. }
  clearbody core.
  destruct core as [|c r]; simpl negb; cbv iota.
  - split; [reflexivity|]. split; [discriminate|reflexivity].
  - split; [done|]. split; [discriminate|done].
Qed.

(* ===================================================================== *)
(** ** Facts about the shortcut writer *)
(* ===================================================================== *)

Lemma string_app_assoc (a b c : string) : (a +:+ b) +:+ c = a +:+ (b +:+ c).
Proof.
  induction a as [|x a IH]; [done|].
  change (String x ((a +:+ b) +:+ c) = String x (a +:+ (b +:+ c))). by rewrite IH.
Qed.

Lemma string_app_empty_r (a : string) : a +:+ "" = a.
Proof.
  induction a as [|x a IH]; [done|].
  change (String x (a +:+ "") = String x a). by rewrite IH.
Qed.

Ltac unfold_io :=
  unfold mbind, IO_bind, mret, IO_ret, call, ask, try_io in *.

(** [create_shortcut] step by step, with the exceptions of the [try] block
    turned into [Failed]. *)
Lemma create_shortcut_unfold form overwrite w :
  create_shortcut form overwrite w =
    let name := Py.strip (name_var form) in
    let exec_command := Py.strip (path_var form) in
    let dest_dir := Pathlib.of_string (dest_var form) in
    let target := desktop_file_path_of form in
    if negb (Shlex.nonempty name) then (Return NameMissing, w)
    else if negb (Shlex.nonempty exec_command) then (Return CommandMissing, w)
    else
      match working_dir_of w exec_command with
      | Raise e => (Raise e, w)
      | Return working_dir =>
          let text := desktop_content_of name exec_command working_dir form in
          match (if path_exists w (Pathlib.str dest_dir) then (Return tt, w)
                 else mkdir_parents dest_dir w) with
          | (Raise e, w1) => (Return (Failed e), w1)
          | (Return _, w1) =>
              if path_exists w1 target && negb overwrite
              then (Return (Cancelled target), w1)
              else
                match write_text target text w1 with
                | (Raise e, w2) => (Return (Failed e), w2)
                | (Return _, w2) =>
                    match chmod target 493 w2 with
                    | (Raise e, w3) => (Return (Failed e), w3)
                    | (Return _, w3) => (Return (Created target), w3)
                    end
                end
          end
      end.
Proof.
  unfold create_shortcut. cbv zeta.
  destruct (Shlex.nonempty (Py.strip (name_var form))); cbn [negb]; [|reflexivity].
  destruct (Shlex.nonempty (Py.strip (path_var form))); cbn [negb]; [|reflexivity].
  unfold_io.
  destruct (working_dir_of w (Py.strip (path_var form))) as [wd|e]; [|reflexivity].
  destruct (path_exists w (Pathlib.str (Pathlib.of_string (dest_var form)))); cbn [negb].
  - destruct (path_exists w (desktop_file_path_of form) && negb overwrite); [reflexivity|].
    destruct (write_text _ _ w) as [[[]|e] w2]; [|reflexivity].
    destruct (chmod _ 493 w2) as [[[]|e] w3]; reflexivity.
  - destruct (mkdir_parents _ w) as [[[]|e] w1]; [|reflexivity].
    destruct (path_exists w1 (desktop_file_path_of form) && negb overwrite); [reflexivity|].
    destruct (write_text _ _ w1) as [[[]|e] w2]; [|reflexivity].
    destruct (chmod _ 493 w2) as [[[]|e] w3]; reflexivity.
Qed.

Lemma write_then_chmod target text m w1 w2 w3 :
  write_text target text w1 = (Return tt, w2) ->
  chmod target m w2 = (Return tt, w3) ->
  files w3 !! target = Some {| content := text; mode := m |}.
Proof.
  unfold write_text, chmod.
  destruct (io_error w1 OpWrite target); [done|].
  destruct (is_dir w1 target); [done|].
  intros [= <-]. cbn [io_error with_files files].
  destruct (io_error w1 OpChmod target); [done|].
  rewrite lookup_insert_eq. cbn [content].
  intros [= <-]. cbn [files with_files]. by rewrite lookup_insert_eq.
Qed.

(** How a run of [create_shortcut] that ends in [Created] went. *)
Lemma create_shortcut_created form overwrite w p w' :
  create_shortcut form overwrite w = (Return (Created p), w') ->
  Py.strip (name_var form) <> ""
  /\ Py.strip (path_var form) <> ""
  /\ p = desktop_file_path_of form
  /\ exists working_dir,
       working_dir_of w (Py.strip (path_var form)) = Return working_dir
       /\ files w' !! p =
            Some {| content :=
                      desktop_content_of (Py.strip (name_var form))
                        (Py.strip (path_var form)) working_dir form;
                    mode := 493 |}.
Proof.
  rewrite create_shortcut_unfold. cbv zeta.
  destruct (Shlex.nonempty (Py.strip (name_var form))) eqn:Hn; cbn [negb]; [|done].
  destruct (Shlex.nonempty (Py.strip (path_var form))) eqn:He; cbn [negb]; [|done].
  apply nonempty_true in Hn, He.
  destruct (working_dir_of w (Py.strip (path_var form))) as [wd|e] eqn:Hwd; [|done].
  destruct (if path_exists w _ then _ else _) as [[[]|e] w1]; [|done].
  destruct (path_exists w1 (desktop_file_path_of form) && negb overwrite); [done|].
  destruct (write_text _ _ w1) as [[[]|e] w2] eqn:Hwrite; [|done].
  destruct (chmod _ 493 w2) as [[[]|e] w3] eqn:Hchmod; [|done].
  intros [= <- <-]. repeat split; try done.
  exists wd. split; [done|]. by eapply write_then_chmod.
Qed.

Lemma desktop_content_render name exec_command working_dir form :
  desktop_content_of name exec_command working_dir form
  = render (spec_entries name exec_command working_dir
              (Py.strip (desc_var form)) (Py.strip (icon_var form))
              (Py.strip (categories_var form)) (terminal_var form)).
Proof.
  unfold desktop_content_of, render, spec_entries, optional_entry, render_entry.
  destruct (Shlex.nonempty working_dir),
    (Shlex.nonempty (Py.strip (desc_var form))),
    (Shlex.nonempty (Py.strip (icon_var form))),
    (Shlex.nonempty (Py.strip (categories_var form))),
    (terminal_var form);
    cbn [app fmap list_fmap String.concat fst snd];
    rewrite ?string_app_assoc; reflexivity.
Qed.

Lemma spec_entries_order name exec_command working_dir comment icon categories terminal :
  (fst <$> spec_entries name exec_command working_dir comment icon categories terminal)
    `sublist_of` key_order.
Proof.
  unfold spec_entries, optional_entry, key_order.
  destruct (Shlex.nonempty working_dir), (Shlex.nonempty comment),
    (Shlex.nonempty icon), (Shlex.nonempty categories);
    cbn [app fmap list_fmap fst];
    repeat first [apply sublist_nil | apply sublist_skip | apply sublist_cons].
Qed.

(** C4.  When [create_shortcut] ends with a file created, that file holds
    the header [[Desktop Entry]] and then, one per line and in this order,
    [Version=1.0], [Type=Application], [Name], [Exec], [Path] if a working
    directory was found, [Comment], [Icon] and [Categories] if the field is
    not blank, the categories with a [;] after them, [Terminal] as [true] or
    [false], and [StartupNotify=true]; nothing else. *)
Theorem shortcut_file_layout form overwrite w p w' :
  create_shortcut form overwrite w = (Return (Created p), w') ->
  exists working_dir f,
    working_dir_of w (Py.strip (path_var form)) = Return working_dir
    /\ files w' !! p = Some f
    /\ let entries :=
         spec_entries (Py.strip (name_var form)) (Py.strip (path_var form)) working_dir
           (Py.strip (desc_var form)) (Py.strip (icon_var form))
           (Py.strip (categories_var form)) (terminal_var form) in
       content f = render entries
       /\ (fst <$> entries) `sublist_of` key_order.
Proof.
  intros (_ & _ & _ & wd & Hwd & Hf)%create_shortcut_created.
  exists wd. eexists. split; [done|]. split; [exact Hf|].
  cbn [content]. split; [apply desktop_content_render | apply spec_entries_order].
Qed.

Lemma shortcut_file_layout_witness :
  create_shortcut editor_form false desktop_world
  = (Return (Created "/home/user/Desktop/My_App_2024.desktop"),
     (create_shortcut editor_form false desktop_world).2)
  /\ exists working_dir f,
       working_dir_of desktop_world (Py.strip (path_var editor_form)) = Return working_dir
       /\ files (create_shortcut editor_form false desktop_world).2
            !! "/home/user/Desktop/My_App_2024.desktop" = Some f
       /\ let entries :=
            spec_entries (Py.strip (name_var editor_form)) (Py.strip (path_var editor_form))
              working_dir (Py.strip (desc_var editor_form)) (Py.strip (icon_var editor_form))
              (Py.strip (categories_var editor_form)) (terminal_var editor_form) in
          content f = render entries
          /\ (fst <$> entries) `sublist_of` key_order.
Proof.
  assert (create_shortcut editor_form false desktop_world
          = (Return (Created "/home/user/Desktop/My_App_2024.desktop"),
             (create_shortcut editor_form false desktop_world).2)) as H
    by (vm_compute; reflexivity).
  split; [exact H|].
  exact (shortcut_file_layout editor_form false desktop_world _ _ H).
Defined.

Example editor_shortcut_text :
  content <$> files (create_shortcut editor_form false desktop_world).2
                !! "/home/user/Desktop/My_App_2024.desktop"
  = Some ("[Desktop Entry]" +:+ nl +:+ "Version=1.0" +:+ nl +:+ "Type=Application" +:+ nl
          +:+ "Name=My/App:2024" +:+ nl +:+ "Exec=myapp --new-window" +:+ nl
          +:+ "Icon=myapp" +:+ nl +:+ "Categories=Utility;" +:+ nl
          +:+ "Terminal=false" +:+ nl +:+ "StartupNotify=true" +:+ nl).
Proof. vm_compute. reflexivity. Qed.

(** C6 as it is worded fails: the mode that is set is [0o755], under which
    neither the group nor the others may write. *)
Lemma created_mode_is_not_rwx_for_all :
  exists f,
    create_shortcut editor_form false desktop_world
    = (Return (Created "/home/user/Desktop/My_App_2024.desktop"),
       (create_shortcut editor_form false desktop_world).2)
    /\ files (create_shortcut editor_form false desktop_world).2
         !! "/home/user/Desktop/My_App_2024.desktop" = Some f
    /\ permits (mode f) 1 1 = false
    /\ permits (mode f) 0 1 = false
    /\ ~ rwx_for_all (mode f).
Proof.
  eexists. split; [vm_compute; reflexivity|]. split; [vm_compute; reflexivity|].
  cbn [mode]. split; [reflexivity|]. split; [reflexivity|].
  intros H. specialize (H 1%Z 1%Z ltac:(lia) ltac:(lia)). discriminate H.
Qed.

(** C6, as the code has it.  When [create_shortcut] ends with a file
    created, the mode of the file is [0o755]: the owner may read, write and
    execute; the group and the others may read and execute, not write. *)
Theorem created_mode_is_0o755 form overwrite w p w' :
  create_shortcut form overwrite w = (Return (Created p), w') ->
  exists f,
    files w' !! p = Some f
    /\ mode f = 493%Z
    /\ permits (mode f) 2 2 = true /\ permits (mode f) 2 1 = true
    /\ permits (mode f) 2 0 = true
    /\ permits (mode f) 1 2 = true /\ permits (mode f) 1 1 = false
    /\ permits (mode f) 1 0 = true
    /\ permits (mode f) 0 2 = true /\ permits (mode f) 0 1 = false
    /\ permits (mode f) 0 0 = true.
Proof.
  intros (_ & _ & _ & wd & _ & Hf)%create_shortcut_created.
  eexists. split; [exact Hf|]. cbn [mode]. repeat split; reflexivity.
Qed.

Lemma created_mode_is_0o755_witness :
  create_shortcut editor_form false desktop_world
  = (Return (Created "/home/user/Desktop/My_App_2024.desktop"),
     (create_shortcut editor_form false desktop_world).2)
  /\ exists f,
       files (create_shortcut editor_form false desktop_world).2
         !! "/home/user/Desktop/My_App_2024.desktop" = Some f
       /\ mode f = 493%Z
       /\ permits (mode f) 2 2 = true /\ permits (mode f) 2 1 = true
       /\ permits (mode f) 2 0 = true
       /\ permits (mode f) 1 2 = true /\ permits (mode f) 1 1 = false
       /\ permits (mode f) 1 0 = true
       /\ permits (mode f) 0 2 = true /\ permits (mode f) 0 1 = false
       /\ permits (mode f) 0 0 = true.
Proof.
  assert (create_shortcut editor_form false desktop_world
          = (Return (Created "/home/user/Desktop/My_App_2024.desktop"),
             (create_shortcut editor_form false desktop_world).2)) as H
    by (vm_compute; reflexivity).
  split; [exact H|].
  exact (created_mode_is_0o755 editor_form false desktop_world _ _ H).
Defined.

(** C8.  When the file of the shortcut is already there and the user does
    not agree to overwrite it, [create_shortcut] returns, it does not report
    a file created, and the files are as they were: the content and the mode
    of the file that was there, and no file more.  If the destination
    directory is there too, as it is when the file is, nothing at all has
    changed. *)
Theorem declined_overwrite_changes_nothing form w :
  path_exists w (desktop_file_path_of form) = true ->
  exists r w',
    create_shortcut form false w = (Return r, w')
    /\ (forall p, r <> Created p)
    /\ files w' = files w
    /\ (path_exists w (Pathlib.str (Pathlib.of_string (dest_var form))) = true ->
        w' = w
        /\ (Py.strip (name_var form) <> "" -> Py.strip (path_var form) <> "" ->
            r = Cancelled (desktop_file_path_of form))).
Proof.
  intros Hex. rewrite create_shortcut_unfold. cbv zeta.
  destruct (Shlex.nonempty (Py.strip (name_var form))) eqn:Hn; cbn [negb].
  2: { apply nonempty_false in Hn. do 2 eexists. split; [reflexivity|]. by repeat split. }
  destruct (Shlex.nonempty (Py.strip (path_var form))) eqn:He; cbn [negb].
  2: { apply nonempty_false in He. do 2 eexists. split; [reflexivity|]. by repeat split. }
  assert (exists wd, working_dir_of w (Py.strip (path_var form)) = Return wd) as [wd ->].
  { unfold working_dir_of.
    repeat match goal with |- context [if ?b then _ else _] => destruct b end; eauto.
    destruct (find_executable_path_returns w (Py.strip (path_var form))) as [r ->].
    unfold_bind. destruct (_ && _); eauto. }
  destruct (path_exists w (Pathlib.str (Pathlib.of_string (dest_var form)))) eqn:Hd.
  - rewrite Hex. cbn [andb negb]. do 2 eexists. split; [reflexivity|]. by repeat split.
  - unfold mkdir_parents. destruct (io_error w OpMkdir _).
    + do 2 eexists. split; [reflexivity|]. by repeat split.
    + match goal with |- context [path_exists ?w1 _ && _] =>
        assert (path_exists w1 (desktop_file_path_of form) = true) as ->
      end.
      { unfold path_exists, is_file, is_dir in *. cbn [files dirs with_dirs].
        apply orb_true_iff in Hex as [Hex|Hex]; apply orb_true_iff; [by left|right].
        apply bool_decide_eq_true in Hex. apply bool_decide_eq_true. set_solver. }
      cbn [andb negb]. do 2 eexists. split; [reflexivity|]. by repeat split.
Qed.

Lemma declined_overwrite_changes_nothing_witness :
  path_exists occupied_world (desktop_file_path_of editor_form) = true
  /\ exists r w',
       create_shortcut editor_form false occupied_world = (Return r, w')
       /\ (forall p, r <> Created p)
       /\ files w' = files occupied_world
       /\ (path_exists occupied_world (Pathlib.str (Pathlib.of_string (dest_var editor_form)))
           = true ->
           w' = occupied_world
           /\ (Py.strip (name_var editor_form) <> "" ->
               Py.strip (path_var editor_form) <> "" ->
               r = Cancelled (desktop_file_path_of editor_form))).
Proof.
  split; [vm_compute; reflexivity|].
  apply (declined_overwrite_changes_nothing editor_form occupied_world).
  vm_compute; reflexivity.
Defined.

Example overwrite_accepted_replaces :
  files (create_shortcut editor_form true occupied_world).2
    !! "/home/user/Desktop/My_App_2024.desktop"
  = files (create_shortcut editor_form false desktop_world).2
      !! "/home/user/Desktop/My_App_2024.desktop".
Proof. vm_compute. reflexivity. Qed.

(* ===================================================================== *)
(** ** Facts about the catalog *)
(* ===================================================================== *)

Lemma leb_refl s : String.leb s s = true.
Proof. by destruct (String.leb_total s s). Qed.

Lemma leb_trans s1 s2 s3 :
  String.leb s1 s2 = true -> String.leb s2 s3 = true -> String.leb s1 s3 = true.
Proof.
  intros H1%Is_true_true H2%Is_true_true. apply Is_true_true.
  exact (transitivity (R := String.le) H1 H2).
Qed.

Lemma leb_false_flip s1 s2 : String.leb s1 s2 = false -> String.leb s2 s1 = true.
Proof. intros H. destruct (String.leb_total s1 s2); congruence. Qed.

Lemma insert_by_key_perm a l : insert_by_key a l ≡ₚ a :: l.
Proof.
  induction l as [|b l IH]; simpl; [done|].
  destruct (String.leb (sort_key a) (sort_key b)); [done|].
  rewrite IH. apply Permutation_swap.
Qed.

Lemma sort_by_key_perm l : sort_by_key l ≡ₚ l.
Proof.
  induction l as [|a l IH]; simpl; [done|]. by rewrite insert_by_key_perm, IH.
Qed.

Lemma insert_by_key_sorted a l :
  StronglySorted key_le l -> StronglySorted key_le (insert_by_key a l).
Proof.
  induction l as [|b l IH]; simpl; intros Hs.
  - by repeat constructor.
  - apply StronglySorted_inv in Hs as [Hl Hb].
    destruct (String.leb (sort_key a) (sort_key b)) eqn:Hab.
    + constructor; [by constructor|]. constructor; [done|].
      eapply Forall_impl; [exact Hb|]. intros c Hbc. by eapply leb_trans.
    + constructor; [by apply IH|].
      rewrite insert_by_key_perm. constructor; [|done].
      by apply leb_false_flip.
Qed.

Lemma sort_by_key_sorted l : StronglySorted key_le (sort_by_key l).
Proof.
  induction l as [|a l IH]; simpl; [constructor|]. by apply insert_by_key_sorted.
Qed.

Lemma keep_Some o a :
  keep o = Some a -> o = Some a /\ name a <> "" /\ exec a <> "".
Proof.
  destruct o as [b|]; simpl; [|done].
  destruct (Shlex.nonempty (name b)) eqn:Hn; [|done].
  destruct (Shlex.nonempty (exec b)) eqn:He; [|done].
  intros [= ->]. by rewrite <- !nonempty_true.
Qed.

Lemma parse_desktop_file_path env w file_path a :
  parse_desktop_file env w file_path = Some a -> desktop_file a = file_path.
Proof.
  intros (text & _ & Hp)%parse_desktop_file_Some.
  destruct (parse_content_returns env w file_path text) as (r & i & _ & Hret).
  rewrite Hret in Hp. by injection Hp as <-.
Qed.

(** Every entry of the catalog is the parse of a file that [glob] gave for
    one of the directories scanned. *)
Lemma in_catalog env w self a :
  a ∈ applications (load_applications env w self) <->
  exists directory file_path,
    directory ∈ scan_dirs env w
    /\ file_path ∈ glob w (directory +:+ "*.desktop")
    /\ keep (parse_desktop_file env w file_path) = Some a.
Proof.
  unfold load_applications. cbn [applications app].
  rewrite sort_by_key_perm, list_elem_of_bind. unfold scan_directory.
  setoid_rewrite list_elem_of_omap. split.
  - intros (directory & (file_path & Hf & Hk) & Hd). by exists directory, file_path.
  - intros (directory & file_path & Hd & Hf & Hk). exists directory. eauto.
Qed.

Lemma mem_char_cons c x s :
  Py.mem_char c (String x s) = Ascii.eqb c x || Py.mem_char c s.
Proof. reflexivity. Qed.

(** A string is cut before its first [sep] in one way only. *)
Lemma cut_unique sep a :
  forall a' rest rest',
    a +:+ rest = a' +:+ rest' ->
    Py.mem_char sep a = false -> Py.mem_char sep a' = false ->
    (rest = "" \/ exists r, rest = String sep r) ->
    (rest' = "" \/ exists r, rest' = String sep r) ->
    a = a'.
Proof.
  induction a as [|x a IH]; intros [|x' a'] rest rest' Heq Ha Ha' Hr Hr'.
  - done.
  - change ("" +:+ rest) with rest in Heq.
    change (String x' a' +:+ rest') with (String x' (a' +:+ rest')) in Heq.
    rewrite mem_char_cons in Ha'. apply orb_false_iff in Ha' as [Hx _].
    destruct Hr as [->|[r ->]]; [done|]. injection Heq as <- _.
    by rewrite Ascii.eqb_refl in Hx.
  - change ("" +:+ rest') with rest' in Heq.
    change (String x a +:+ rest) with (String x (a +:+ rest)) in Heq.
    rewrite mem_char_cons in Ha. apply orb_false_iff in Ha as [Hx _].
    destruct Hr' as [->|[r ->]]; [done|]. injection Heq as -> _.
    by rewrite Ascii.eqb_refl in Hx.
  - change (String x (a +:+ rest) = String x' (a' +:+ rest')) in Heq.
    injection Heq as -> Heq.
    rewrite mem_char_cons in Ha, Ha'.
    apply orb_false_iff in Ha as [_ Ha]. apply orb_false_iff in Ha' as [_ Ha'].
    f_equal. by eapply IH.
Qed.

Lemma language_of_lang_code env lang : language_of env lang <-> lang = lang_code env.
Proof.
  unfold language_of, lang_code.
  destruct (first_item_split "."%char (environ_get (LANG env) "en_US.UTF-8"))
    as (rest0 & Heq0 & Hm0 & Hr0).
  split.
  - intros (rest & Heq & Hm & Hr). rewrite Heq0 in Heq at 1.
    symmetry. by eapply cut_unique.
  - intros ->. eauto.
Qed.

Lemma lacking_name_or_exec env w file_path text a :
  read_text w file_path = Return text ->
  (lacks (read_entries text) (localized "Name" (lang_code env))
   /\ lacks (read_entries text) "Name"
   /\ lacks (read_entries text) "GenericName")
  \/ lacks (read_entries text) "Exec" ->
  parse_desktop_file env w file_path = Some a ->
  name a = "" \/ exec a = "".
Proof.
  intros Hread Hlack Hp. rewrite (parse_desktop_file_read _ _ _ _ Hread) in Hp.
  destruct (parse_content_returns env w file_path text) as (r & i & _ & Hret).
  rewrite Hret in Hp. injection Hp as <-. cbn [name exec].
  destruct Hlack as [(Hl & Hn & Hg)|He]; [left|by right].
  unfold entry_name, get_localized, lacks, dict_get in *.
  destruct (read_entries text !! localized "Name" (lang_code env)) as [v|]; simpl in *.
  - subst v. simpl. exact Hg.
  - rewrite Hn. simpl. exact Hg.
Qed.

Lemma load_applications_ok env w self :
  catalog_ok env w (applications (load_applications env w self)).
Proof.
  split.
  - apply Forall_forall. intros a (d & f & _ & _ & Hk)%in_catalog.
    by apply keep_Some in Hk as (_ & ? & ?).
  - apply sort_by_key_sorted.
  - intros a (d & f & _ & _ & Hk)%in_catalog.
    apply keep_Some in Hk as (Hp & _ & _).
    by rewrite (parse_desktop_file_path _ _ _ _ Hp).
  - intros file_path text lang Hread ->%language_of_lang_code Hlack a
      (d & f & _ & _ & Hk)%in_catalog Hpath.
    apply keep_Some in Hk as (Hp & Hn & He).
    rewrite <- (parse_desktop_file_path _ _ _ _ Hp), Hpath in Hp.
    destruct (lacking_name_or_exec _ _ _ _ _ Hread Hlack Hp); done.
Qed.

(** C7, as the code has it.  After a load and after a refresh, from whatever
    list was there before, every entry of the catalog has a name and an Exec
    line that are not empty; the catalog is sorted by the lowercase of the
    names; every entry is the parse of its file; and a file that has no value
    for [Name[code]], where [code] is the language code of the environment,
    none for [Name] and none for [GenericName], or none for [Exec], has no
    entry. *)
Theorem catalog_invariant env w self :
  catalog_ok env w (applications (load_applications env w self))
  /\ catalog_ok env w (applications (refresh_applications env w self))
  /\ catalog_ok env w (applications (init env w)).
Proof. split; [|split]; apply load_applications_ok. Qed.

(** C7 as it is worded fails here: with [LANG=fr_FR.UTF-8], a file that has
    neither a [Name] key nor a [GenericName] key but has [Name[fr_FR]] yields
    an entry of the catalog, under the name of the language. *)
Lemma localized_name_alone_is_listed :
  read_text fou_world fou_path = Return fou_desktop
  /\ read_entries fou_desktop !! "Name" = None
  /\ read_entries fou_desktop !! "GenericName" = None
  /\ (fun a => (name a, exec a, desktop_file a))
       <$> applications (load_applications fr_env fou_world {| applications := [] |})
     = [("Fou", "fou", fou_path)].
Proof. repeat split; vm_compute; reflexivity. Qed.

Example catalog_of_one_file :
  let w := {| files := {[ foo_path := {| content := foo_desktop; mode := 420 |} ]};
              dirs := {[ "/usr/share/applications/" ]};
              umask := 18;
              access_X_OK := fun _ => false;
              run_which := fun _ => Raise FileNotFoundError;
              glob := fun pattern =>
                if String.eqb pattern "/usr/share/applications/*.desktop"
                then [foo_path] else [];
              io_error := fun _ _ => None |} in
  name <$> applications (init fr_env w) = ["Foo"].
Proof. vm_compute. reflexivity. Qed.

Lemma scan_dirs_NoDup env w : NoDup (scan_dirs env w).
Proof.
  unfold scan_dirs. apply NoDup_ListNoDup, List.NoDup_filter, NoDup_ListNoDup.
  apply NoDup_elements.
Qed.

Lemma elem_of_scan_dirs env w d :
  d ∈ scan_dirs env w <-> d ∈ candidate_dirs env /\ path_exists w d = true.
Proof.
  unfold scan_dirs.
  rewrite list_elem_of_In, List.filter_In, <- list_elem_of_In.
  by rewrite elem_of_elements, elem_of_list_to_set.
Qed.


(* ===================================================================== *)
(** ** More about the shortcut writer *)
(* ===================================================================== *)

(** X1.  A blank name is refused before anything else, a blank command
    next; in both cases nothing is done to the file system. *)
Theorem blank_fields_are_refused form overwrite w :
  (Py.strip (name_var form) = "" ->
   create_shortcut form overwrite w = (Return NameMissing, w))
  /\ (Py.strip (name_var form) <> "" -> Py.strip (path_var form) = "" ->
      create_shortcut form overwrite w = (Return CommandMissing, w)).
Proof.
  split.
  - intros Hn%nonempty_false. rewrite create_shortcut_unfold. cbv zeta. by rewrite Hn.
  - intros Hn%nonempty_true He%nonempty_false.
    rewrite create_shortcut_unfold. cbv zeta. by rewrite Hn, He.
Qed.

Lemma mem_char_app c a b :
  Py.mem_char c (a +:+ b) = Py.mem_char c a || Py.mem_char c b.
Proof.
  induction a as [|x a IH]; [done|].
  change (Ascii.eqb c x || Py.mem_char c (a +:+ b)
          = Ascii.eqb c x || Py.mem_char c a || Py.mem_char c b).
  by rewrite IH, orb_assoc.
Qed.

Lemma all_chars_not_mem p c s :
  p c = false -> Py.all_chars p s = true -> Py.mem_char c s = false.
Proof.
  intros Hc. induction s as [|x s IH]; [done|]. cbn [Py.all_chars Py.mem_char].
  intros [Hx Hs]%andb_true_iff. rewrite (IH Hs), orb_false_r.
  destruct (Ascii.eqb c x) eqn:Heq; [|done].
  apply Ascii.eqb_eq in Heq as <-. congruence.
Qed.

Lemma split_without_separator sep s : Py.mem_char sep s = false -> Py.split sep s = [s].
Proof.
  induction s as [|x s IH]; [done|]. cbn [Py.mem_char Py.split].
  intros [Hx Hs]%orb_false_iff. rewrite (Ascii.eqb_sym x sep), Hx. by rewrite (IH Hs).
Qed.

Lemma removelast_snoc {A} (l : list A) x : List.removelast (l ++ [x]) = l.
Proof. rewrite List.removelast_app by done. simpl. apply app_nil_r. Qed.

Lemma safe_name_allowed name :
  Py.all_chars allowed_char (safe_name_of name) = true /\ safe_name_of name <> "".
Proof.
  unfold safe_name_of.
  assert (Py.all_chars allowed_char
            (Py.replace_dunder (Py.strip (Py.map_chars clean_char name))) = true) as Hall.
  { apply all_chars_replace_dunder. unfold Py.strip, Py.strip_by.
    apply all_chars_lstrip_by, all_chars_rstrip_by, all_chars_map_clean. }
  destruct (Py.replace_dunder _); cbn [Shlex.nonempty negb]; [by split|by split].
Qed.

(** X3.  The file name of a shortcut has no slash in it and is a single
    component of the path: whatever the name typed, the file is created
    directly in the destination directory, and its name ends in
    [.desktop]. *)
Theorem shortcut_stays_in_destination form :
  let file_name := safe_name_of (Py.strip (name_var form)) +:+ ".desktop" in
  let target := Pathlib.joinpath (Pathlib.of_string (dest_var form)) file_name in
  Py.mem_char "/"%char file_name = false
  /\ desktop_file_path_of form = Pathlib.str target
  /\ Pathlib.parts target = Pathlib.parts (Pathlib.of_string (dest_var form)) ++ [file_name]
  /\ Pathlib.parent target = Pathlib.of_string (dest_var form).
Proof.
  intros file_name target.
  destruct (safe_name_allowed (Py.strip (name_var form))) as [Hall Hne].
  assert (Py.mem_char "/"%char file_name = false) as Hslash.
  { unfold file_name. rewrite mem_char_app.
    rewrite (all_chars_not_mem allowed_char "/"%char _ eq_refl Hall). reflexivity. }
  assert (Pathlib.of_string file_name = {| Pathlib.root := ""; Pathlib.parts := [file_name] |})
    as Hname.
  { unfold Pathlib.of_string. rewrite (split_without_separator _ _ Hslash).
    unfold file_name in *. destruct (safe_name_of _) as [|c r]; [done|].
    f_equal.
    - cbn [Py.mem_char String.append] in Hslash.
      change (String c r +:+ ".desktop") with (String c (r +:+ ".desktop")) in *.
      cbn [Py.mem_char] in Hslash. apply orb_false_iff in Hslash as [Hc _].
      unfold Pathlib.root_of.
      destruct (Ascii.eqb_spec "/"%char c) as [<-|Hc']; [done|].
      destruct c as [[] [] [] [] [] [] [] []]; try reflexivity. by destruct Hc'.
    - change (String c r +:+ ".desktop") with (String c (r +:+ ".desktop")).
      assert (String.eqb (String c (r +:+ ".desktop")) "." = false) as Hdot.
      { apply String.eqb_neq. intros [= _ H]. by destruct r. }
      cbn [List.filter]. unfold Pathlib.is_component. rewrite Hdot. reflexivity. }
  assert (target = {| Pathlib.root := Pathlib.root (Pathlib.of_string (dest_var form));
                      Pathlib.parts :=
                        Pathlib.parts (Pathlib.of_string (dest_var form)) ++ [file_name] |})
    as Htarget.
  { unfold target, Pathlib.joinpath. by rewrite Hname. }
  split; [done|]. split; [done|]. rewrite Htarget. split; [done|].
  unfold Pathlib.parent. cbn [Pathlib.root Pathlib.parts]. rewrite removelast_snoc.
  by destruct (Pathlib.of_string (dest_var form)).
Qed.

Example hostile_name_stays_in_destination :
  desktop_file_path_of
    {| name_var := "../../etc/cron.d/job"; path_var := "x"; icon_var := ""; desc_var := "";
       categories_var := ""; terminal_var := false; dest_var := "/home/user/Desktop" |}
  = "/home/user/Desktop/.._.._etc_cron.d_job.desktop".
Proof. vm_compute. reflexivity. Qed.





(* ===================================================================== *)
(** ** The parser reads back what the writer wrote *)
(* ===================================================================== *)

Lemma line_free_app a b : line_free (a +:+ b) = line_free a && line_free b.
Proof.
  unfold line_free. induction a as [|x a IH]; [done|].
  change (negb (Ascii.eqb x "010"%char)
          && Py.all_chars (fun c => negb (Ascii.eqb c "010"%char)) (a +:+ b)
          = negb (Ascii.eqb x "010"%char)
            && Py.all_chars (fun c => negb (Ascii.eqb c "010"%char)) a
            && Py.all_chars (fun c => negb (Ascii.eqb c "010"%char)) b).
  by rewrite IH, andb_assoc.
Qed.


Lemma split_line a b :
  line_free a = true -> Py.split "010"%char (a +:+ nl +:+ b) = a :: Py.split "010"%char b.
Proof.
  unfold line_free. induction a as [|x a IH]; [done|].
  cbn [Py.all_chars]. intros [Hx Ha]%andb_true_iff.
  change (String x a +:+ nl +:+ b) with (String x (a +:+ nl +:+ b)).
  cbn [Py.split]. apply negb_true_iff in Hx. rewrite Hx. by rewrite (IH Ha).
Qed.

Lemma rstrip_by_app p s u :
  Py.rstrip_by p u <> "" -> Py.rstrip_by p (s +:+ u) = s +:+ Py.rstrip_by p u.
Proof.
  intros Hu. induction s as [|c s IH]; [done|].
  change (String c s +:+ u) with (String c (s +:+ u)).
  change (String c s +:+ Py.rstrip_by p u) with (String c (s +:+ Py.rstrip_by p u)).
  cbn [Py.rstrip_by]. rewrite IH.
  destruct (s +:+ Py.rstrip_by p u) eqn:Hs; [|done].
  destruct s; [|done]. by destruct Hu.
Qed.






Lemma insert_entries_other d entries key :
  key ∉ (fst <$> entries) -> insert_entries d entries !! key = d !! key.
Proof.
  revert d. induction entries as [|[k v] entries IH]; intros d; [done|].
  cbn [fmap list_fmap fst]. intros [Hk Hrest]%not_elem_of_cons.
  unfold insert_entries. cbn [List.fold_left fst snd].
  fold (insert_entries (<[k := Py.rstrip_by Py.isspace v]> d) entries).
  rewrite IH by done. by rewrite lookup_insert_ne.
Qed.

Lemma insert_entries_lookup d entries key value :
  NoDup (fst <$> entries) -> (key, value) ∈ entries ->
  insert_entries d entries !! key = Some (Py.rstrip_by Py.isspace value).
Proof.
  revert d. induction entries as [|[k v] entries IH]; intros d.
  - intros _ []%elem_of_nil.
  - cbn [fmap list_fmap fst]. intros [Hk Hnd]%NoDup_cons [[= -> ->]|Hin]%elem_of_cons.
    + unfold insert_entries. cbn [List.fold_left fst snd].
      fold (insert_entries (<[k := Py.rstrip_by Py.isspace v]> d) entries).
      rewrite insert_entries_other by done. by rewrite lookup_insert_eq.
    + unfold insert_entries. cbn [List.fold_left fst snd].
      fold (insert_entries (<[k := Py.rstrip_by Py.isspace v]> d) entries).
      by apply IH.
Qed.

Lemma key_order_NoDup : NoDup key_order.
Proof. apply (bool_decide_unpack _). vm_compute. exact I. Qed.

Lemma spec_entries_NoDup name exec_command working_dir comment icon categories terminal :
  NoDup (fst <$> spec_entries name exec_command working_dir comment icon categories terminal).
Proof. eapply sublist_NoDup; [apply key_order_NoDup | apply spec_entries_order]. Qed.











(** A carriage return in the name ends the line when the file is read: what
    comes back is the name up to it. *)
Example carriage_return_cuts_the_name :
  let form := {| name_var := "My" +:+ String "013"%char "App";
                 path_var := "flatpak run org.gnome.Lollypop";
                 icon_var := ""; desc_var := ""; categories_var := "";
                 terminal_var := false; dest_var := "/home/user/Desktop" |} in
  let p := "/home/user/Desktop/My_App.desktop" in
  fst (create_shortcut form false desktop_world) = Return (Created p)
  /\ name <$> parse_desktop_file fr_env (create_shortcut form false desktop_world).2 p
     = Some "My".
Proof. split; vm_compute; reflexivity. Qed.

Example written_shortcut_read_again :
  (fun info => (name info, exec info, resolved_path info, categories info))
    <$> parse_desktop_file fr_env (create_shortcut flatpak_form false desktop_world).2
          "/home/user/Desktop/Lollypop.desktop"
  = Some ("Lollypop", "flatpak run org.gnome.Lollypop", "flatpak run org.gnome.Lollypop",
          "AudioVideo;").
Proof. vm_compute. reflexivity. Qed.

(* ===================================================================== *)
(** ** More about the parser *)
(* ===================================================================== *)

(** X7.  [parse_desktop_file] gives [None] exactly when the file cannot be
    read: it is not there, or reading it raises.  A file that can be read
    always gives an entry, whatever its text. *)
Theorem parse_fails_only_on_unreadable_files env w file_path :
  parse_desktop_file env w file_path = None
  <-> files w !! file_path = None \/ is_Some (io_error w OpRead file_path).
Proof.
  unfold parse_desktop_file, read_text. unfold_bind.
  destruct (files w !! file_path) as [f|]; [|by intuition].
  destruct (io_error w OpRead file_path) as [e|] eqn:Hio.
  - split; [intros _; right; eauto | done].
  - destruct (parse_content_returns env w file_path (Py.universal_newlines (content f)))
      as (r & i & _ & ->).
    split; [done|]. intros [?|[? ?]]; done.
Qed.

(** X8.  An entry that is not a Flatpak one and whose Exec line contains
    [snap/gui] keeps its Exec line as the command and its icon as it is: the
    executable is not looked up, whatever [which] would say. *)
Theorem snap_exec_is_kept env w file_path text :
  read_text w file_path = Return text ->
  is_flatpak env (read_entries text) file_path = false ->
  Py.contains "snap/gui" (dict_get (read_entries text) "Exec" "") = true ->
  exists info,
    parse_desktop_file env w file_path = Some info
    /\ resolved_path info = exec info
    /\ exec info = dict_get (read_entries text) "Exec" ""
    /\ icon info = get_localized (read_entries text) "Icon" (lang_code env).
Proof.
  intros Hread Hf Hs. rewrite (parse_desktop_file_read _ _ _ _ Hread).
  destruct (parse_content_returns env w file_path text) as (r & i & Hres & ->).
  eexists. split; [reflexivity|]. cbn [resolved_path exec icon].
  destruct Hres; try congruence; by repeat split.
Qed.

Lemma snap_exec_is_kept_witness :
  read_text (world_with_file snap_path snap_desktop) snap_path = Return snap_desktop
  /\ exists info,
       parse_desktop_file fr_env (world_with_file snap_path snap_desktop) snap_path = Some info
       /\ resolved_path info = exec info
       /\ exec info = dict_get (read_entries snap_desktop) "Exec" ""
       /\ icon info = get_localized (read_entries snap_desktop) "Icon" (lang_code fr_env).
Proof.
  split; [vm_compute; reflexivity|].
  apply (snap_exec_is_kept fr_env (world_with_file snap_path snap_desktop) snap_path
           snap_desktop); vm_compute; reflexivity.
Defined.

Lemma split_app sep a b :
  Py.split sep (a +:+ String sep b) = Py.split sep a ++ Py.split sep b.
Proof.
  induction a as [|c a IH].
  - change ("" +:+ String sep b) with (String sep b). cbn [Py.split].
    by rewrite Ascii.eqb_refl.
  - change (String c a +:+ String sep b) with (String c (a +:+ String sep b)).
    cbn [Py.split]. rewrite IH. destruct (Ascii.eqb c sep); [done|].
    destruct (Py.split sep a) eqn:Ha; [by destruct (split_nonempty _ _ Ha)|done].
Qed.

Lemma rev_app_snoc s c acc :
  String.rev_app (s +:+ String c "") acc = String c (String.rev_app s acc).
Proof.
  revert acc. induction s as [|x s IH]; intros acc; [done|].
  change (String x s +:+ String c "") with (String x (s +:+ String c "")).
  cbn [String.rev_app]. apply IH.
Qed.

Lemma drop_last_snoc s c : Py.drop_last (s +:+ String c "") = s.
Proof.
  induction s as [|x s IH]; [done|].
  change (String x s +:+ String c "") with (String x (s +:+ String c "")).
  cbn [Py.drop_last]. rewrite IH.
  destruct s; reflexivity.
Qed.

(** A line [[section]] is a header and opens that section. *)
Lemma read_line_header st section :
  read_line st ("[" +:+ section +:+ "]") = (Some section, snd st).
Proof.
  destruct st as [sec d]. unfold read_line.
  assert (Py.strip ("[" +:+ section +:+ "]") = "[" +:+ section +:+ "]") as ->.
  { unfold Py.strip, Py.strip_by.
    change ("[" +:+ section +:+ "]") with (String "["%char (section +:+ "]")).
    rewrite rstrip_by_cons_keep by reflexivity.
    rewrite rstrip_by_app by done. reflexivity. }
  assert (Py.endswith ("[" +:+ section +:+ "]") "]" = true) as ->.
  { unfold Py.endswith, String.rev.
    change ("[" +:+ section +:+ "]") with (("[" +:+ section) +:+ String "]"%char "").
    rewrite rev_app_snoc. change (String.rev_app "]" "") with "]".
    cbn [String.prefix]. destruct (Ascii.ascii_dec "]" "]"); [|done].
    by destruct (String.rev_app ("[" +:+ section) ""). }
  assert (Py.startswith ("[" +:+ section +:+ "]") "[" = true) as ->.
  { unfold Py.startswith.
    change ("[" +:+ section +:+ "]") with (String "["%char (section +:+ "]")).
    cbn [String.prefix]. destruct (Ascii.ascii_dec "[" "["); [|done].
    by destruct (section +:+ "]"). }
  cbn [andb].
  change ("[" +:+ section +:+ "]") with (String "["%char (section +:+ String "]"%char "")).
  cbn [Py.slice_1_m1]. by rewrite drop_last_snoc.
Qed.

(** In a section other than [Desktop Entry], a line that is no header
    changes nothing. *)
Lemma read_lines_other_section section d lines :
  section <> "Desktop Entry" ->
  Forall (fun line => is_header line = false) lines ->
  List.fold_left read_line lines (Some section, d) = (Some section, d).
Proof.
  intros Hsec. induction 1 as [|line lines Hline _ IH]; [done|].
  cbn [List.fold_left]. unfold read_line at 2. unfold is_header in Hline. rewrite Hline.
  apply String.eqb_neq in Hsec. by rewrite Hsec.
Qed.

(** X9.  Only the section [Desktop Entry] counts: when a file goes on with
    another section, the lines of that section, up to the next header, do not
    change what the parser reads, even if they set keys such as [Name] or
    [Exec] again. *)
Theorem other_sections_are_ignored text section other :
  section <> "Desktop Entry" ->
  line_free section = true ->
  Forall (fun line => is_header line = false) (Py.split "010"%char other) ->
  read_entries (text +:+ nl +:+ "[" +:+ section +:+ "]" +:+ nl +:+ other)
  = read_entries text.
Proof.
  intros Hsec Hfree Hother. unfold read_entries.
  change (text +:+ nl +:+ "[" +:+ section +:+ "]" +:+ nl +:+ other)
    with (text +:+ String "010"%char ("[" +:+ section +:+ "]" +:+ nl +:+ other)).
  replace ("[" +:+ section +:+ "]" +:+ nl +:+ other)
    with (("[" +:+ section +:+ "]") +:+ nl +:+ other)
    by (by rewrite !string_app_assoc).
  rewrite split_app, split_line, List.fold_left_app.
  - cbn [List.fold_left]. rewrite read_line_header.
    rewrite read_lines_other_section by done. reflexivity.
  - rewrite !line_free_app, Hfree. reflexivity.
Qed.

Lemma other_sections_are_ignored_witness :
  "Desktop Action new-window" <> "Desktop Entry"
  /\ read_entries (foo_desktop +:+ nl +:+ "[" +:+ "Desktop Action new-window" +:+ "]" +:+ nl
                   +:+ ("Name=New Window" +:+ nl +:+ "Exec=foo --new-window" +:+ nl))
     = read_entries foo_desktop.
Proof.
  assert ("Desktop Action new-window" <> "Desktop Entry") as H by discriminate.
  split; [exact H|].
  apply (other_sections_are_ignored foo_desktop "Desktop Action new-window"
           ("Name=New Window" +:+ nl +:+ "Exec=foo --new-window" +:+ nl) H).
  - reflexivity.
  - replace (Py.split "010"%char ("Name=New Window" +:+ nl +:+ "Exec=foo --new-window" +:+ nl))
      with ["Name=New Window"; "Exec=foo --new-window"; ""] by (vm_compute; reflexivity).
    repeat (apply Forall_cons; split; [vm_compute; reflexivity|]). apply Forall_nil_2.
Defined.

(* ===================================================================== *)
(** ** More about the resolver *)
(* ===================================================================== *)

Lemma plain_word_char_spec c :
  plain_word_char c = true ->
  Py.isspace c = false /\ Shlex.is_whitespace c = false /\ Shlex.is_quote c = false
  /\ Shlex.is_escape c = false /\ Ascii.eqb c "%"%char = false
  /\ Py.mem_char c (String Shlex.dquote (String Shlex.squote "")) = false.
Proof.
  unfold plain_word_char.
  intros [[[Hs%negb_true_iff Hq%negb_true_iff]%andb_true_iff He%negb_true_iff]%andb_true_iff
            Hp%negb_true_iff]%andb_true_iff.
  repeat split; try done.
  - destruct (Shlex.is_whitespace c) eqn:Hw; [|done].
    unfold Shlex.is_whitespace in Hw.
    repeat (apply orb_true_iff in Hw as [Hw|Hw]);
      apply Ascii.eqb_eq in Hw; subst c; discriminate Hs.
  - unfold Shlex.is_quote in Hq. apply orb_false_iff in Hq as [Hq1 Hq2].
    cbn [Py.mem_char]. by rewrite Hq1, Hq2.
Qed.

Lemma lex_plain_word_end word :
  forall tok es q,
    Py.all_chars plain_word_char word = true -> Shlex.nonempty tok = true ->
    Shlex.lex word Shlex.Word es tok q = Return [tok +:+ word].
Proof.
  induction word as [|c word IH]; intros tok es q Hall Htok.
  - cbn [Shlex.lex]. by rewrite Htok, string_app_empty_r.
  - cbn [Py.all_chars] in Hall. apply andb_true_iff in Hall as [Hc Hall].
    destruct (plain_word_char_spec c Hc) as (_ & Hw & Hq & He & _).
    cbn [Shlex.lex]. rewrite Hw, Hq, He. rewrite IH; [|done|].
    + unfold Shlex.push. by rewrite string_app_assoc.
    + unfold Shlex.push. by destruct tok.
Qed.

Lemma lex_plain_word_space word rest :
  forall tok es q,
    Py.all_chars plain_word_char word = true -> Shlex.nonempty tok = true ->
    Shlex.lex (word +:+ String " "%char rest) Shlex.Word es tok q
    = (tokens ← Shlex.lex rest Shlex.Blank Shlex.Blank "" false;
       Return ((tok +:+ word) :: tokens)).
Proof.
  induction word as [|c word IH]; intros tok es q Hall Htok.
  - change ("" +:+ String " "%char rest) with (String " "%char rest).
    cbn [Shlex.lex]. change (Shlex.is_whitespace " ") with true. cbv iota.
    by rewrite Htok, string_app_empty_r.
  - cbn [Py.all_chars] in Hall. apply andb_true_iff in Hall as [Hc Hall].
    destruct (plain_word_char_spec c Hc) as (_ & Hw & Hq & He & _).
    change (String c word +:+ String " "%char rest)
      with (String c (word +:+ String " "%char rest)).
    cbn [Shlex.lex]. rewrite Hw, Hq, He. rewrite IH; [|done|].
    + unfold Shlex.push. by rewrite string_app_assoc.
    + unfold Shlex.push. by destruct tok.
Qed.

Lemma strip_by_plain p s :
  Py.all_chars (fun c => negb (p c)) s = true -> Py.strip_by p s = s.
Proof.
  intros Hall. unfold Py.strip_by.
  assert (Py.rstrip_by p s = s) as ->.
  { induction s as [|c s IH]; [done|]. cbn [Py.all_chars] in Hall.
    apply andb_true_iff in Hall as [Hc%negb_true_iff Hall].
    rewrite rstrip_by_cons_keep by done. by rewrite IH. }
  destruct s as [|c s]; [done|]. cbn [Py.all_chars] in Hall.
  apply andb_true_iff in Hall as [Hc%negb_true_iff _]. cbn [Py.lstrip_by]. by rewrite Hc.
Qed.

Lemma split_ws_go_word w s acc :
  Py.all_chars (fun c => negb (Py.isspace c)) w = true ->
  Py.split_ws_go (Some acc) (w +:+ s) = Py.split_ws_go (Some (String.rev_app w acc)) s.
Proof.
  revert acc. induction w as [|c w IH]; intros acc Hall; [done|].
  cbn [Py.all_chars] in Hall. apply andb_true_iff in Hall as [Hc%negb_true_iff Hall].
  change (String c w +:+ s) with (String c (w +:+ s)).
  cbn [Py.split_ws_go]. rewrite Hc. cbv [from_option id]. by rewrite IH.
Qed.

Lemma rev_app_rev_app a b c :
  String.rev_app (String.rev_app a b) c = String.rev_app b (a +:+ c).
Proof.
  revert b c. induction a as [|x a IH]; intros b c; [done|].
  cbn [String.rev_app]. by rewrite IH.
Qed.

Lemma all_chars_weaken (p q : ascii -> bool) s :
  (forall c, p c = true -> q c = true) ->
  Py.all_chars p s = true -> Py.all_chars q s = true.
Proof. apply all_chars_impl. Qed.

(** The first token of a command line that starts with a plain word is that
    word, whether the rest can be tokenized or the fallback split is used. *)
Lemma first_token_plain_word word args :
  plain_word word = true -> arguments args ->
  first_token (word +:+ args) = Some word.
Proof.
  unfold plain_word. intros [Hne Hall]%andb_true_iff Hargs.
  destruct word as [|c word]; [done|]. clear Hne.
  pose proof Hall as Hall'. cbn [Py.all_chars] in Hall'.
  apply andb_true_iff in Hall' as [Hc Hword].
  destruct (plain_word_char_spec c Hc) as (Hsp & Hw & Hq & He & _).
  unfold first_token, exec_parts, Shlex.split, try_except.
  change (String c word +:+ args) with (String c (word +:+ args)).
  cbn [Shlex.lex]. rewrite Hw, He, Hq.
  destruct Hargs as [->|[rest ->]].
  - rewrite string_app_empty_r, lex_plain_word_end by done. reflexivity.
  - rewrite lex_plain_word_space by done. unfold_bind.
    destruct (Shlex.lex rest _ _ _ _) as [tokens|e] eqn:Hrest; [reflexivity|].
    apply lex_raises_ValueError in Hrest as ->. cbn [is_ValueError].
    (* the fallback split *)
    unfold fallback_split, Py.split_ws.
    cbn [Py.split_ws_go]. rewrite Hsp. cbv [from_option id].
    rewrite split_ws_go_word.
    2: { eapply all_chars_weaken; [|exact Hword].
         intros x Hx. by destruct (plain_word_char_spec x Hx) as (-> & _). }
    cbn [Py.split_ws_go]. change (Py.isspace " ") with true. cbv iota.
    cbn [fmap option_fmap option_map option_list app].
    unfold String.rev. rewrite rev_app_rev_app. cbn [String.rev_app].
    rewrite string_app_empty_r.
    assert (Py.strip (String c word) = String c word) as Hstrip.
    { apply strip_by_plain. eapply all_chars_weaken; [|exact Hall].
      intros x Hx. by destruct (plain_word_char_spec x Hx) as (-> & _). }
    cbv [option_list option_rect]. cbn [app List.filter]. rewrite Hstrip.
    cbn [Shlex.nonempty List.map].
    unfold Py.strip_chars.
    rewrite (strip_by_plain (fun x => Py.mem_char x _) (String c word)); [reflexivity|].
    eapply all_chars_weaken; [|exact Hall].
    intros x Hx. by destruct (plain_word_char_spec x Hx) as (_ & _ & _ & _ & _ & ->).
Qed.

(** X10.  For a command line that starts with a plain word (no whitespace,
    quote, backslash or [%] in it) and stops there or goes on with a space
    and anything at all, also arguments with quotes that do not close, the
    candidate is that word, whatever the word is; and if the word is an
    absolute path that exists and passes the execute check, it is what
    [find_executable_path] returns. *)
Theorem absolute_executable_is_kept w word args :
  plain_word word = true -> arguments args ->
  exec_candidate (word +:+ args) = Some word
  /\ (isabs word = true -> path_exists w word = true -> access_X_OK w word = true ->
      find_executable_path w (word +:+ args) = Return word).
Proof.
  intros Hplain Hargs.
  assert (exec_candidate (word +:+ args) = Some word) as Hc.
  { unfold exec_candidate. rewrite (first_token_plain_word _ _ Hplain Hargs).
    cbn [fmap option_fmap option_map]. f_equal. unfold strip_placeholders.
    apply andb_true_iff in Hplain as [_ Hall].
    rewrite split_without_separator.
    - cbn [Py.first_item List.hd]. apply strip_by_plain.
      eapply all_chars_weaken; [|exact Hall].
      intros x Hx. by destruct (plain_word_char_spec x Hx) as (-> & _).
    - exact (all_chars_not_mem plain_word_char "%"%char _ eq_refl Hall). }
  split; [done|]. intros Habs Hex Hacc. rewrite find_executable_path_unfold, Hc.
  apply andb_true_iff in Hplain as [-> _].
  unfold lookup_candidate. by rewrite Habs, Hex, Hacc.
Qed.

Lemma absolute_executable_is_kept_witness :
  (plain_word "vim" = true
   /\ arguments (String " "%char ("%F " +:+ String Shlex.dquote "unclosed"))
   /\ exec_candidate ("vim" +:+ String " "%char ("%F " +:+ String Shlex.dquote "unclosed"))
      = Some "vim")
  /\ (plain_word "/usr/bin/vim" = true
      /\ isabs "/usr/bin/vim" = true
      /\ path_exists vim_world "/usr/bin/vim" = true
      /\ access_X_OK vim_world "/usr/bin/vim" = true
      /\ find_executable_path vim_world
           ("/usr/bin/vim" +:+ String " "%char ("%F " +:+ String Shlex.dquote "unclosed"))
         = Return "/usr/bin/vim").
Proof.
  assert (arguments (String " "%char ("%F " +:+ String Shlex.dquote "unclosed"))) as Ha
    by (right; eexists; reflexivity).
  split.
  - split; [reflexivity|]. split; [exact Ha|].
    exact (proj1 (absolute_executable_is_kept vim_world "vim" _ eq_refl Ha)).
  - repeat (split; [reflexivity|]).
    exact (proj2 (absolute_executable_is_kept vim_world "/usr/bin/vim" _ eq_refl Ha)
             eq_refl eq_refl eq_refl).
Defined.

(* ===================================================================== *)
(** ** More about the catalog loader *)
(* ===================================================================== *)

Lemma add_xdg_step_keeps (entries : list string) :
  forall (desktop_dirs : list string) (d : string),
    d ∈ desktop_dirs ->
    d ∈ List.fold_left
          (fun desktop_dirs d =>
             if Shlex.nonempty d && negb (bool_decide (d ∈ desktop_dirs))
             then desktop_dirs ++ [path_join d "applications"]
             else desktop_dirs) entries desktop_dirs.
Proof.
  induction entries as [|x entries IH]; intros dirs d Hd; [done|].
  cbn [List.fold_left]. apply IH.
  destruct (_ && _); [|done]. apply elem_of_app. by left.
Qed.

Lemma add_xdg_step_origin (entries : list string) :
  forall (desktop_dirs : list string) (d : string),
    d ∈ List.fold_left
          (fun desktop_dirs d =>
             if Shlex.nonempty d && negb (bool_decide (d ∈ desktop_dirs))
             then desktop_dirs ++ [path_join d "applications"]
             else desktop_dirs) entries desktop_dirs ->
    d ∈ desktop_dirs
    \/ exists x, x ∈ entries /\ x <> "" /\ d = path_join x "applications".
Proof.
  induction entries as [|x entries IH]; intros dirs d Hd; [by left|].
  cbn [List.fold_left] in Hd. apply IH in Hd as [Hd|(y & Hy & Hne & ->)].
  - destruct (Shlex.nonempty x) eqn:Hx; cbn [andb] in Hd.
    + destruct (negb _); [|by left].
      apply elem_of_app in Hd as [Hd|Hd%list_elem_of_singleton]; [by left|].
      right. exists x. split; [apply list_elem_of_here|]. by apply nonempty_true in Hx.
    + by left.
  - right. exists y. split; [by apply list_elem_of_further|done].
Qed.

Lemma add_xdg_step_adds (entries : list string) :
  forall (desktop_dirs : list string) (x : string),
    x ∈ entries -> x <> "" ->
    let result :=
      List.fold_left
        (fun desktop_dirs d =>
           if Shlex.nonempty d && negb (bool_decide (d ∈ desktop_dirs))
           then desktop_dirs ++ [path_join d "applications"]
           else desktop_dirs) entries desktop_dirs in
    path_join x "applications" ∈ result \/ x ∈ result.
Proof.
  induction entries as [|y entries IH]; intros dirs x Hx Hne; [by apply elem_of_nil in Hx|].
  apply elem_of_cons in Hx as [->|Hx]; [|by apply IH].
  cbn [List.fold_left]. apply nonempty_true in Hne. rewrite Hne. cbn [andb].
  destruct (bool_decide (y ∈ dirs)) eqn:Hy; cbn [negb].
  - right. apply add_xdg_step_keeps. by apply bool_decide_eq_true in Hy.
  - left. apply add_xdg_step_keeps. apply elem_of_app. right. apply list_elem_of_here.
Qed.

Lemma candidate_dirs_unfold env :
  candidate_dirs env = add_xdg_data_dirs env (builtin_dirs env).
Proof.
  unfold candidate_dirs, add_xdg_data_home.
  assert ((home env +:+ "/.local/share/applications/")
            ∈ add_xdg_data_dirs env (builtin_dirs env)) as Hin.
  { apply add_xdg_step_keeps. unfold builtin_dirs.
    do 2 apply list_elem_of_further. apply list_elem_of_here. }
  apply (bool_decide_eq_true_2 _) in Hin. rewrite Hin. cbn [negb].
  by rewrite andb_false_r.
Qed.

(** X11.  The directory of [XDG_DATA_HOME] is never added to the list: the
    test of line 183 asks whether a built-in entry is missing from the list,
    and it never is.  Setting, changing or unsetting [XDG_DATA_HOME] changes
    neither the directories scanned nor the catalog. *)
Theorem xdg_data_home_is_never_used env w self value :
  candidate_dirs env = add_xdg_data_dirs env (builtin_dirs env)
  /\ scan_dirs (with_xdg_data_home env value) w = scan_dirs env w
  /\ load_applications (with_xdg_data_home env value) w self = load_applications env w self.
Proof.
  pose proof candidate_dirs_unfold as Hc.
  assert (scan_dirs (with_xdg_data_home env value) w = scan_dirs env w) as Hs.
  { unfold scan_dirs. by rewrite !Hc. }
  split; [apply Hc|]. split; [exact Hs|].
  unfold load_applications. by rewrite Hs.
Qed.

(** X12.  The list of the directories scanned has no path twice and only
    paths that exist.  Each of them is a built-in directory or the
    [applications] path under an entry of [XDG_DATA_DIRS] that is not empty;
    a built-in directory that exists is always in it; and for an entry of
    [XDG_DATA_DIRS] that is not empty, its [applications] path is among the
    candidates unless the entry itself is one. *)
Theorem scan_dirs_characterised env w :
  NoDup (scan_dirs env w)
  /\ (forall d, d ∈ scan_dirs env w ->
        path_exists w d = true
        /\ (d ∈ builtin_dirs env
            \/ exists x, x ∈ xdg_entries env /\ x <> "" /\ d = path_join x "applications"))
  /\ (forall d, d ∈ builtin_dirs env -> path_exists w d = true -> d ∈ scan_dirs env w)
  /\ (forall x, x ∈ xdg_entries env -> x <> "" ->
        path_join x "applications" ∈ candidate_dirs env \/ x ∈ candidate_dirs env).
Proof.
  pose proof (candidate_dirs_unfold env) as Hc.
  split; [apply scan_dirs_NoDup|]. split; [|split].
  - intros d [Hd Hex]%elem_of_scan_dirs. split; [done|].
    rewrite Hc in Hd. by apply add_xdg_step_origin in Hd.
  - intros d Hd Hex. apply elem_of_scan_dirs. split; [|done].
    rewrite Hc. by apply add_xdg_step_keeps.
  - intros x Hx Hne. rewrite Hc. by apply add_xdg_step_adds.
Qed.

Lemma insert_by_key_filter key a l :
  filter (fun b => sort_key b = key) (insert_by_key a l)
  = filter (fun b => sort_key b = key) (a :: l).
Proof.
  induction l as [|b l IH]; [done|]. cbn [insert_by_key].
  destruct (String.leb (sort_key a) (sort_key b)) eqn:Hab; [done|].
  rewrite filter_cons, IH, !filter_cons.
  destruct (decide (sort_key b = key)) as [Hb|Hb], (decide (sort_key a = key)) as [Ha|Ha];
    try done.
  rewrite <- Hb in Ha. rewrite Ha, leb_refl in Hab. done.
Qed.

Lemma sort_by_key_filter key l :
  filter (fun b => sort_key b = key) (sort_by_key l) = filter (fun b => sort_key b = key) l.
Proof.
  induction l as [|a l IH]; [done|]. cbn [sort_by_key].
  by rewrite insert_by_key_filter, !filter_cons, IH.
Qed.

(** X13.  Sorting only reorders: the catalog has exactly the entries that
    the scan parsed and kept, each as often as it was found; and entries
    whose names are the same in lowercase stay in the order in which they
    were found. *)
Theorem catalog_is_a_stable_sort env w self :
  applications (load_applications env w self) ≡ₚ scanned env w
  /\ forall key,
       filter (fun a => sort_key a = key) (applications (load_applications env w self))
       = filter (fun a => sort_key a = key) (scanned env w).
Proof.
  unfold load_applications, scanned. cbn [applications app].
  split; [apply sort_by_key_perm|]. intros key. apply sort_by_key_filter.
Qed.

Lemma filter_all_true {A} (f : A -> bool) l :
  Forall (fun a => f a = true) l -> List.filter f l = l.
Proof. induction 1 as [|a l Ha _ IH]; [done|]. cbn [List.filter]. by rewrite Ha, IH. Qed.

(** X14.  After a load the dropdown shows the names of the catalog, one for
    each entry and in the order of the catalog, that is sorted without
    regard to case; and if there is any, the selection is cleared. *)
Theorem dropdown_lists_the_catalog env w self app_var :
  let catalog := applications (load_applications env w self) in
  let shown := update_app_dropdown (load_applications env w self) app_var in
  fst shown = name <$> catalog
  /\ List.length (fst shown) = List.length catalog
  /\ StronglySorted (fun a b => String.leb (Py.lower a) (Py.lower b) = true) (fst shown)
  /\ snd shown = (if decide (catalog = []) then app_var else "").
Proof.
  intros catalog shown.
  destruct (load_applications_ok env w self) as [Hnamed Hsorted _ _]. fold catalog in Hnamed, Hsorted.
  assert (fst shown = name <$> catalog) as Hshown.
  { unfold shown, update_app_dropdown. cbn [fst]. fold catalog. f_equal.
    apply filter_all_true. eapply Forall_impl; [exact Hnamed|].
    intros a [Hn _]. by apply nonempty_true. }
  split; [done|]. rewrite Hshown. split; [by rewrite length_fmap|]. split.
  - clear -Hsorted. induction Hsorted as [|a l _ IH Hall]; [constructor|].
    cbn [fmap list_fmap]. constructor; [done|].
    apply Forall_fmap. eapply Forall_impl; [exact Hall|]. done.
  - unfold shown, update_app_dropdown. cbn [snd]. fold catalog.
    rewrite filter_all_true.
    2: { eapply Forall_impl; [exact Hnamed|]. intros a [Hn _]. by apply nonempty_true. }
    destruct catalog; by destruct (decide _).
Qed.

(* ===================================================================== *)
(** ** The selection of an application *)
(* ===================================================================== *)

(** X15.  The category that a selection puts in the form is always one of
    the values that the category box offers, and never [Utility] or [Other].
    Categories with [system], [utility] or [settings] in them are shown as
    [System] when they have none of the words that are tested before these;
    with one of those words in them they are shown as the category of the
    first such test. *)
Theorem category_of_is_offered categories :
  category_of categories ∈ category_values
  /\ category_of categories <> "Utility"
  /\ category_of categories <> "Other"
  /\ (Exists (fun word => Py.contains word (Py.lower categories) = true) system_words ->
      Forall (fun word => Py.contains word (Py.lower categories) = false) earlier_words ->
      category_of categories = "System").
Proof.
  assert (category_of categories
            ∈ ["Game"; "Development"; "Office"; "Graphics"; "AudioVideo"; "Network";
               "System"; "Education"; "Science"; "Finance"; "Application"]) as Hin.
  { unfold category_of. cbv zeta.
    destruct (Shlex.nonempty categories);
      repeat match goal with
             | |- (if ?b then _ else _) ∈ _ => destruct b
             end;
      repeat first [apply list_elem_of_here | apply list_elem_of_further]. }
  split; [|split; [|split]].
  - unfold category_values.
    repeat (apply elem_of_cons in Hin as [->|Hin];
            [repeat first [apply list_elem_of_here | apply list_elem_of_further]|]).
    by apply elem_of_nil in Hin.
  - intros Heq. rewrite Heq in Hin.
    repeat (apply elem_of_cons in Hin as [Hin|Hin]; [discriminate Hin|]).
    by apply elem_of_nil in Hin.
  - intros Heq. rewrite Heq in Hin.
    repeat (apply elem_of_cons in Hin as [Hin|Hin]; [discriminate Hin|]).
    by apply elem_of_nil in Hin.
  - intros Hsys Hearlier. unfold earlier_words in Hearlier.
    repeat match type of Hearlier with
           | Forall _ (_ :: _) => apply Forall_cons in Hearlier as [? Hearlier]
           end.
    assert (Py.contains "system" (Py.lower categories)
            || Py.contains "utility" (Py.lower categories)
            || Py.contains "settings" (Py.lower categories) = true) as Hany.
    { unfold system_words in Hsys.
      repeat match type of Hsys with
             | Exists _ (_ :: _) => apply Exists_cons in Hsys as [->|Hsys]
             end; rewrite ?orb_true_r; try done.
      by apply Exists_nil in Hsys. }
    unfold category_of. cbv zeta.
    destruct (Shlex.nonempty categories) eqn:Hne.
    + repeat match goal with H : Py.contains _ _ = false |- _ => rewrite H; clear H end.
      cbn [orb]. by rewrite Hany.
    + apply nonempty_false in Hne as ->. discriminate Hany.
Qed.

Lemma category_of_is_offered_witness :
  Exists (fun word => Py.contains word (Py.lower "Utility;TextEditor;") = true) system_words
  /\ Forall (fun word => Py.contains word (Py.lower "Utility;TextEditor;") = false)
       earlier_words
  /\ category_of "Utility;TextEditor;" = "System".
Proof.
  assert (Exists (fun word => Py.contains word (Py.lower "Utility;TextEditor;") = true)
            system_words) as Hsys
    by (apply Exists_cons_tl, Exists_cons_hd; reflexivity).
  assert (Forall (fun word => Py.contains word (Py.lower "Utility;TextEditor;") = false)
            earlier_words) as Hearlier
    by (repeat constructor).
  split; [exact Hsys|]. split; [exact Hearlier|].
  exact (proj2 (proj2 (proj2 (category_of_is_offered "Utility;TextEditor;"))) Hsys Hearlier).
Defined.

Example game_comes_before_utility :
  category_of "Game;Utility;" = "Game" /\ category_of "Utility;Development;" = "Development".
Proof. split; vm_compute; reflexivity. Qed.

Lemma prefix_cons_inv a s1 b s2 :
  String.prefix (String a s1) (String b s2) = true -> a = b /\ String.prefix s1 s2 = true.
Proof. cbn [String.prefix]. by destruct (Ascii.ascii_dec a b). Qed.

Lemma prefix_empty s : String.prefix "" s = true.
Proof. by destruct s. Qed.

Lemma contains_cons sub c s :
  Py.contains sub s = true -> Py.contains sub (String c s) = true.
Proof. intros H. cbn [Py.contains]. rewrite H. apply orb_true_r. Qed.

Lemma contains_video_ide s :
  Py.contains "video" s = true -> Py.contains "ide" s = true.
Proof.
  induction s as [|c s IH]; [done|].
  cbn [Py.contains]. intros [Hp|Hc]%orb_true_iff; [|by rewrite (IH Hc), orb_true_r].
  apply contains_cons.
  apply prefix_cons_inv in Hp as [_ Hp].
  destruct s as [|c1 s]; [done|]. apply prefix_cons_inv in Hp as [<- Hp].
  destruct s as [|c2 s]; [done|]. apply prefix_cons_inv in Hp as [<- Hp].
  destruct s as [|c3 s]; [done|]. apply prefix_cons_inv in Hp as [<- Hp].
  cbn [Py.contains]. apply orb_true_iff. left.
  cbn [String.prefix].
  destruct (Ascii.ascii_dec "i" "i"); [|done].
  destruct (Ascii.ascii_dec "d" "d"); [|done].
  destruct (Ascii.ascii_dec "e" "e"); [|done].
  apply prefix_empty.
Qed.

(** X16.  The word [ide] is looked for anywhere in the categories, so the
    categories of a video player, which have [video] in them, make the form
    show [Development] unless they have [game] in them too; the branch for
    [AudioVideo] is not reached by them. *)
Theorem video_is_shown_as_development categories :
  Py.contains "video" (Py.lower categories) = true ->
  Py.contains "game" (Py.lower categories) = false ->
  category_of categories = "Development".
Proof.
  intros Hv Hg. unfold category_of. cbv zeta.
  destruct (Shlex.nonempty categories) eqn:Hne.
  - rewrite Hg, (contains_video_ide _ Hv). by rewrite !orb_true_r.
  - apply nonempty_false in Hne as ->. discriminate Hv.
Qed.

Lemma video_is_shown_as_development_witness :
  Py.contains "video" (Py.lower "AudioVideo;Player;Video;") = true
  /\ Py.contains "game" (Py.lower "AudioVideo;Player;Video;") = false
  /\ category_of "AudioVideo;Player;Video;" = "Development".
Proof.
  split; [reflexivity|]. split; [reflexivity|].
  apply (video_is_shown_as_development "AudioVideo;Player;Video;"); reflexivity.
Defined.

Lemma find_first {A} (f : A -> bool) before a rest :
  Forall (fun b => f b = false) before -> f a = true ->
  List.find f (before ++ a :: rest) = Some a.
Proof.
  induction 1 as [|b before Hb _ IH]; intros Ha; cbn [app List.find].
  - by rewrite Ha.
  - rewrite Hb. by apply IH.
Qed.

Lemma find_none {A} (f : A -> bool) l :
  Forall (fun b => f b = false) l -> List.find f l = None.
Proof. induction 1 as [|b l Hb _ IH]; [done|]. cbn [List.find]. by rewrite Hb. Qed.

(** X17.  A selection never changes the destination.  With nothing selected,
    or a name that no entry has, the form stays as it is.  Otherwise the form
    is filled from the first entry of that name: its resolved command, icon,
    comment, terminal flag and the category shown for its categories; the
    name typed by the user is kept if it is not empty and is not the selected
    name itself. *)
Theorem selection_fills_the_form self selected_name form :
  let form' := on_app_selected self selected_name form in
  dest_var form' = dest_var form
  /\ (selected_name = ""
      \/ Forall (fun a => name a <> selected_name) (applications self) ->
      form' = form)
  /\ (forall before a rest,
        selected_name <> "" ->
        applications self = before ++ a :: rest ->
        Forall (fun b => name b <> selected_name) before ->
        name a = selected_name ->
        path_var form' = resolved_path a
        /\ icon_var form' = icon a
        /\ desc_var form' = comment a
        /\ terminal_var form' = terminal a
        /\ categories_var form' = category_of (categories a)
        /\ name_var form'
           = (if decide (name_var form = "" \/ name_var form = selected_name)
              then selected_name else name_var form)).
Proof.
  intros form'. unfold form', on_app_selected, selected_app_of.
  split; [|split].
  - destruct (negb _); [done|]. by destruct (List.find _ _).
  - intros [->|Hall]; [done|].
    destruct (negb _); [done|]. rewrite find_none; [done|].
    eapply Forall_impl; [exact Hall|]. intros a Ha. by apply String.eqb_neq.
  - intros before a rest Hne%nonempty_true -> Hbefore Ha. rewrite Hne. cbn [negb].
    rewrite (find_first _ before a rest).
    + cbn [path_var icon_var desc_var terminal_var categories_var name_var].
      repeat split.
      * by destruct (icon a).
      * by destruct (comment a).
      * rewrite Ha.
        destruct (decide (name_var form = "" \/ name_var form = selected_name))
          as [[Hn|Hn]|Hn].
        -- by rewrite Hn.
        -- rewrite Hn, String.eqb_refl. by rewrite orb_true_r.
        -- destruct (Shlex.nonempty (name_var form)) eqn:Hf.
           ++ cbn [negb orb].
              destruct (String.eqb_spec (name_var form) selected_name); [|done].
              destruct Hn. by right.
           ++ apply nonempty_false in Hf. destruct Hn. by left.
    + eapply Forall_impl; [exact Hbefore|]. intros b Hb. by apply String.eqb_neq.
    + by apply String.eqb_eq.
Qed.

(** X18.  For an entry that counts as a Flatpak one, and for one whose Exec
    line contains [snap/gui], nothing is asked of the file system or of
    [which]: what the parser makes of the text is the same on every
    system. *)
Theorem sandboxed_entries_are_not_looked_up env w1 w2 file_path text :
  is_flatpak env (read_entries text) file_path = true
  \/ Py.contains "snap/gui" (dict_get (read_entries text) "Exec" "") = true ->
  parse_content env w1 file_path text = parse_content env w2 file_path text.
Proof.
  intros H. unfold parse_content, is_snap.
  destruct (is_flatpak env (read_entries text) file_path) eqn:Hf; [reflexivity|].
  destruct H as [H|H]; [done|]. by rewrite H.
Qed.

Lemma sandboxed_entries_are_not_looked_up_witness :
  (is_flatpak fr_env (read_entries zen_desktop) zen_path = true
   \/ Py.contains "snap/gui" (dict_get (read_entries zen_desktop) "Exec" "") = true)
  /\ parse_content fr_env vim_world zen_path zen_desktop
     = parse_content fr_env desktop_world zen_path zen_desktop.
Proof.
  assert (is_flatpak fr_env (read_entries zen_desktop) zen_path = true
          \/ Py.contains "snap/gui" (dict_get (read_entries zen_desktop) "Exec" "") = true) as H
    by (left; vm_compute; reflexivity).
  split; [exact H|].
  exact (sandboxed_entries_are_not_looked_up fr_env vim_world desktop_world zen_path
           zen_desktop H).
Defined.

(* ===================================================================== *)
(** ** The working directory of a shortcut *)
(* ===================================================================== *)

Lemma isabs_slash s : isabs (String "/"%char s) = true.
Proof.
  unfold isabs, Py.startswith. cbn [String.prefix].
  destruct (Ascii.ascii_dec "/" "/"); [apply prefix_empty|done].
Qed.

Lemma str_of_absolute s :
  Pathlib.is_absolute (Pathlib.of_string s) = true ->
  isabs (Pathlib.str (Pathlib.of_string s)) = true
  /\ isabs (Pathlib.str (Pathlib.parent (Pathlib.of_string s))) = true.
Proof.
  unfold Pathlib.is_absolute, Pathlib.parent, Pathlib.str, Pathlib.of_string.
  cbn [Pathlib.root Pathlib.parts].
  assert (Pathlib.root_of s = "" \/ Pathlib.root_of s = "/" \/ Pathlib.root_of s = "//") as Hr.
  { unfold Pathlib.root_of. destruct s as [|c0 [|c1 [|c2 s]]]; auto;
      repeat match goal with
             | |- context [match ?c with Ascii _ _ _ _ _ _ _ _ => _ end] =>
                 destruct c as [[] [] [] [] [] [] [] []]
             end; auto. }
  destruct Hr as [-> | [-> | ->]]; [done| |]; intros _; split; apply isabs_slash.
Qed.

(** X19.  The working directory that [create_shortcut] derives is empty or
    an absolute path: the command itself when it is an absolute path to a
    directory, else the parent of an absolute path to a file, the command or
    what the lookup made of it.  A relative path never goes into [Path]. *)
Theorem working_dir_is_absolute w exec_command working_dir :
  working_dir_of w exec_command = Return working_dir ->
  working_dir = ""
  \/ (isabs working_dir = true
      /\ (is_dir w working_dir = true
          \/ exists file,
               is_file w (Pathlib.str (Pathlib.of_string file)) = true
               /\ working_dir = Pathlib.str (Pathlib.parent (Pathlib.of_string file)))).
Proof.
  unfold working_dir_of.
  destruct (_ || _); [intros [= <-]; by left|].
  destruct (Pathlib.is_absolute (Pathlib.of_string exec_command)) eqn:Habs; cbn [andb].
  - destruct (path_exists w _).
    + destruct (is_dir w _) eqn:Hd.
      * intros [= <-]. right. split; [by apply str_of_absolute|by left].
      * destruct (is_file w _) eqn:Hf; intros [= <-]; [|by left].
        right. split; [by apply str_of_absolute|]. right. eauto.
    + destruct (find_executable_path_returns w exec_command) as [r ->]. unfold_bind.
      destruct (Pathlib.is_absolute (Pathlib.of_string r)) eqn:Hr; cbn [andb];
        [|intros [= <-]; by left].
      destruct (is_file w _) eqn:Hf; intros [= <-]; [|by left].
      right. split; [by apply str_of_absolute|]. right. eauto.
  - destruct (find_executable_path_returns w exec_command) as [r ->]. unfold_bind.
    destruct (Pathlib.is_absolute (Pathlib.of_string r)) eqn:Hr; cbn [andb];
      [|intros [= <-]; by left].
    destruct (is_file w _) eqn:Hf; intros [= <-]; [|by left].
    right. split; [by apply str_of_absolute|]. right. eauto.
Qed.

Lemma working_dir_is_absolute_witness :
  working_dir_of vim_world "vim" = Return "/usr/bin"
  /\ ("/usr/bin" = ""
      \/ (isabs "/usr/bin" = true
          /\ (is_dir vim_world "/usr/bin" = true
              \/ exists file,
                   is_file vim_world (Pathlib.str (Pathlib.of_string file)) = true
                   /\ "/usr/bin" = Pathlib.str (Pathlib.parent (Pathlib.of_string file))))).
Proof.
  assert (working_dir_of vim_world "vim" = Return "/usr/bin") as H by (vm_compute; reflexivity).
  split; [exact H|]. exact (working_dir_is_absolute vim_world "vim" "/usr/bin" H).
Defined.
